(** * OpenSenseMap integration for Home Assistant: a shallow embedding

    The development follows the Python sources
    [custom_components/opensensemap/{const,coordinator,sensor,config_flow}.py].

    - Python [float] is IEEE 754 binary64: [spec_float] with precision 53
      and maximal exponent 1024, computed by the Standard Library's
      executable specification of the floating-point operations.
    - Python [dict]s with string keys are [gmap string _].
    - A config entry's [data] and [options] dictionaries hold values of
      three types, fixed per key by the schemas of the config flow
      ([str] for identifiers and entity references, a number for the update
      interval, [bool] for the debug flag); a dictionary is the triple of
      its string-valued part and its two other keys.
    - The coordinator keeps a reference to the config entry, which Home
      Assistant updates in place: the entry lives in the [World] beside the
      coordinator, and every read of [self.entry] is a read of the world.
    - Exceptions are instances of Python's [Exception] class, the ones an
      [except Exception] clause ranges over.  Effects are threaded by a
      state-and-exception monad whose state survives a raise, as attribute
      assignments do in Python. *)

From Stdlib Require Import ZArith SpecFloat Lia Ascii String.
From stdpp Require Import base option strings gmap list pretty.

Open Scope Z_scope.
Open Scope string_scope.

(** ** const.py *)

Definition DOMAIN := "opensensemap".
Definition API_URL_prefix := "https://api.opensensemap.org/boxes/".
Definition API_URL_suffix := "/data".
(** [API_URL.format(box_id=b)] for
    [API_URL = "https://api.opensensemap.org/boxes/{box_id}/data"]. *)
Definition API_URL_format (box_id : string) : string :=
  API_URL_prefix +:+ box_id +:+ API_URL_suffix.
Definition SOFTWARE_TYPE := "HomeAssistant-OpenSenseMap".

Definition DEFAULT_UPDATE_INTERVAL : Z := 300.
Definition MIN_UPDATE_INTERVAL : Z := 60.

Definition CONF_BOX_ID := "box_id".
Definition CONF_ACCESS_TOKEN := "access_token".
Definition CONF_UPDATE_INTERVAL := "update_interval".
Definition CONF_DEBUG_MODE := "debug_mode".

Definition CONF_SENSOR_ID_PM25 := "sensor_id_pm25".
Definition CONF_SENSOR_ID_PM10 := "sensor_id_pm10".
Definition CONF_SENSOR_ID_TEMPERATURE := "sensor_id_temperature".
Definition CONF_SENSOR_ID_HUMIDITY := "sensor_id_humidity".
Definition CONF_SENSOR_ID_PRESSURE := "sensor_id_pressure".

Definition CONF_ENTITY_PM25 := "entity_pm25".
Definition CONF_ENTITY_PM10 := "entity_pm10".
Definition CONF_ENTITY_TEMPERATURE := "entity_temperature".
Definition CONF_ENTITY_HUMIDITY := "entity_humidity".
Definition CONF_ENTITY_PRESSURE := "entity_pressure".

Definition MEASUREMENT_PM := "pm".
Definition MEASUREMENT_TEMPERATURE := "temperature".
Definition MEASUREMENT_HUMIDITY := "humidity".
Definition MEASUREMENT_PRESSURE := "pressure".

(** One row of [SENSOR_CONFIGS]:
    [(sensor_id_key, entity_key, label, measurement_type)]. *)
Record SensorConfig := mkSensorConfig {
  sensor_id_key : string;
  entity_key : string;
  label : string;
  measurement_type : string
}.

Definition SENSOR_CONFIGS : list SensorConfig :=
  [ mkSensorConfig CONF_SENSOR_ID_PM25 CONF_ENTITY_PM25 "PM2.5" MEASUREMENT_PM;
    mkSensorConfig CONF_SENSOR_ID_PM10 CONF_ENTITY_PM10 "PM10" MEASUREMENT_PM;
    mkSensorConfig CONF_SENSOR_ID_TEMPERATURE CONF_ENTITY_TEMPERATURE
                   "Temperature" MEASUREMENT_TEMPERATURE;
    mkSensorConfig CONF_SENSOR_ID_HUMIDITY CONF_ENTITY_HUMIDITY
                   "Humidity" MEASUREMENT_HUMIDITY;
    mkSensorConfig CONF_SENSOR_ID_PRESSURE CONF_ENTITY_PRESSURE
                   "Pressure" MEASUREMENT_PRESSURE ].

(** ** Python values *)

(** *** Floats *)

Module PyFloat.

Definition float := spec_float.
Definition prec : Z := 53.
Definition emax : Z := 1024.

(** An integer literal in float arithmetic, and a decimal literal
    [n / 10^k] as the correctly rounded quotient of two exact floats. *)
Definition of_Z (z : Z) : float := binary_normalize prec emax z 0 false.
Definition mul : float → float → float := SFmul prec emax.
Definition sub : float → float → float := SFsub prec emax.
Definition div : float → float → float := SFdiv prec emax.
Definition ltb : float → float → bool := SFltb.
Definition leb : float → float → bool := SFleb.
Definition gtb (x y : float) : bool := ltb y x.
Definition of_hundredths (z : Z) : float := div (of_Z z) (of_Z 100).

End PyFloat.

Declare Scope pyfloat_scope.
Delimit Scope pyfloat_scope with F.
Infix "*" := PyFloat.mul : pyfloat_scope.
Infix "-" := PyFloat.sub : pyfloat_scope.
Infix "/" := PyFloat.div : pyfloat_scope.
Infix "<=?" := PyFloat.leb : pyfloat_scope.
Infix ">?" := PyFloat.gtb : pyfloat_scope.

(** *** Strings *)

(** Truthiness of [str | None]: [None] and the empty string are falsy. *)
Definition truthy (o : option string) : bool :=
  match o with
  | Some s => negb (String.eqb s "")
  | None => false
  end.

(** [x in (a, b, ...)] on strings. *)
Definition str_in (x : string) (l : list string) : bool :=
  bool_decide (x ∈ l).

(** [sep.join(l)]. *)
Definition join (sep : string) (l : list string) : string :=
  String.concat sep l.

(** ** Home Assistant objects *)

(** A [State] of the state machine: [state.state] and [state.attributes]. *)
Record State := mkState {
  state : option string;
  attributes : gmap string string
}.

(** ** coordinator.py: unit conversion *)

(** [OpenSenseMapCoordinator._convert_value]. *)
Definition _convert_value (measurement_type : string) (value : PyFloat.float)
    (st : State) : PyFloat.float :=
  let unit := default "" (attributes st !! "unit_of_measurement") in
  if String.eqb measurement_type MEASUREMENT_TEMPERATURE then
    if str_in unit ["°F"; "F"] then
      ((value - PyFloat.of_Z 32) * PyFloat.of_Z 5 / PyFloat.of_Z 9)%F
    else value
  else if String.eqb measurement_type MEASUREMENT_PRESSURE then
    if str_in unit ["hPa"; "mbar"; ""] then (value * PyFloat.of_Z 100)%F
    else if String.eqb unit "inHg" then
      (value * PyFloat.of_hundredths 338639)%F
    else if String.eqb unit "psi" then
      (value * PyFloat.of_hundredths 689476)%F
    else value
  else if String.eqb measurement_type MEASUREMENT_HUMIDITY then
    if (value >? PyFloat.of_Z 1)%F && (value <=? PyFloat.of_Z 100)%F then value
    else if (value <=? PyFloat.of_Z 1)%F then (value * PyFloat.of_Z 100)%F
    else value
  else value.

(** ** The Python runtime

    [float(s)] ([None] when it raises [ValueError]), the format
    specification [.2f] and [datetime.isoformat()] belong to the Python
    runtime, not to this repository: the coordinator is parameterised by
    them.  A [datetime] is a number of seconds. *)
Class PyRuntime := {
  py_float : string → option PyFloat.float;
  format_2f : PyFloat.float → string;
  isoformat : Z → string
}.

(** ** Configuration entries *)

(** A [dict[str, Any]] of a config entry, of a form's [user_input] or of a
    flow's collected [_data]. *)
Record Dict := mkDict {
  strs : gmap string string;
  update_interval_item : option Z;
  debug_mode_item : option bool
}.

Definition empty_dict : Dict := mkDict ∅ None None.

(** [d.get(key)] on a string-valued key. *)
Definition dict_get (d : Dict) (key : string) : option string := strs d !! key.

(** [options.get(key, config_data.get(key))]. *)
Definition get_option_or_data (options config_data : Dict) (key : string)
    : option string :=
  match dict_get options key with
  | Some v => Some v
  | None => dict_get config_data key
  end.

(** [d[key] = value]. *)
Definition dict_set (d : Dict) (key value : string) : Dict :=
  mkDict (<[key := value]> (strs d)) (update_interval_item d) (debug_mode_item d).

(** [ConfigEntry]: the fields the integration reads. *)
Record ConfigEntry := mkConfigEntry {
  data : Dict;
  options : Dict
}.

(** ** Exceptions and the network *)

Inductive ExcClass :=
  | TimeoutError      (* caught by [except asyncio.TimeoutError] *)
  | ClientError       (* an aiohttp.ClientError that is not a timeout *)
  | KeyError
  | OtherException.   (* any other subclass of Exception *)

(** An exception instance: its class and [str(err)]. *)
Record Exc := mkExc {
  exc_class : ExcClass;
  exc_str : string
}.

Inductive Result (A : Type) :=
  | Ok (a : A)
  | Raised (e : Exc).
Arguments Ok {A} a.
Arguments Raised {A} e.

(** The arguments of [session.post(url, json=..., headers=...)]. *)
Record Request := mkRequest {
  req_url : string;
  req_json : gmap string string;
  req_headers : gmap string string
}.

(** What the request does under [asyncio.timeout(HTTP_TIMEOUT)]: a response
    with its status and body text, or an exception. *)
Inductive NetOutcome :=
  | Response (status : Z) (text : string)
  | Raises (e : Exc).

(** ** The coordinator object *)

(** [last_request_data]: the dictionary with keys [url], [headers] and
    [payload]. *)
Record RequestData := mkRequestData {
  rd_url : string;
  rd_headers : gmap string string;
  rd_payload : gmap string string
}.

Record Coordinator := mkCoordinator {
  _box_id : string;
  _access_token : option string;
  _session : bool;                       (* a [ClientSession] is open *)
  last_upload : option Z;
  last_error : option string;
  upload_count : Z;
  last_request_data : option RequestData;
  update_interval : Z                    (* seconds of the timedelta *)
}.

(** A call made by the coordinator, in the order of the calls. *)
Inductive Call :=
  | CallCollect
  | CallPost (req : Request).

(** Everything a cycle reads or writes.  [entry] is the config entry object
    that [self.entry] refers to, shared with the configuration flows;
    [states] is [hass.states]; [network] answers a request and [clock] is
    [datetime.now()]. *)
Record World := mkWorld {
  entry : ConfigEntry;
  states : gmap string State;
  network : Request → NetOutcome;
  clock : Z;
  self : Coordinator;
  calls : list Call
}.

Definition set_self (f : Coordinator → Coordinator) (w : World) : World :=
  mkWorld (entry w) (states w) (network w) (clock w) (f (self w)) (calls w).

Definition add_call (c : Call) (w : World) : World :=
  mkWorld (entry w) (states w) (network w) (clock w) (self w) (calls w ++ [c])%list.

(** An options update by Home Assistant: the same entry object, new
    contents. *)
Definition update_entry (e : ConfigEntry) (w : World) : World :=
  mkWorld e (states w) (network w) (clock w) (self w) (calls w).

(** Attribute assignments on [self]. *)
Definition with_last_error (v : option string) (c : Coordinator) : Coordinator :=
  mkCoordinator (_box_id c) (_access_token c) (_session c) (last_upload c) v
                (upload_count c) (last_request_data c) (update_interval c).

Definition with_last_upload (v : option Z) (c : Coordinator) : Coordinator :=
  mkCoordinator (_box_id c) (_access_token c) (_session c) v (last_error c)
                (upload_count c) (last_request_data c) (update_interval c).

Definition with_upload_count (v : Z) (c : Coordinator) : Coordinator :=
  mkCoordinator (_box_id c) (_access_token c) (_session c) (last_upload c)
                (last_error c) v (last_request_data c) (update_interval c).

Definition with_last_request_data (v : option RequestData) (c : Coordinator)
    : Coordinator :=
  mkCoordinator (_box_id c) (_access_token c) (_session c) (last_upload c)
                (last_error c) (upload_count c) v (update_interval c).

Definition with_session (v : bool) (c : Coordinator) : Coordinator :=
  mkCoordinator (_box_id c) (_access_token c) v (last_upload c)
                (last_error c) (upload_count c) (last_request_data c)
                (update_interval c).

(** ** The monad of a method body *)

Definition M (A : Type) : Type := World → Result A * World.

Definition ret {A} (a : A) : M A := λ w, (Ok a, w).

Definition bind {A B} (m : M A) (k : A → M B) : M B :=
  λ w, match m w with
       | (Ok a, w') => k a w'
       | (Raised e, w') => (Raised e, w')
       end.

Definition raise {A} (e : Exc) : M A := λ w, (Raised e, w).

(** [try: body except Exception as err: handler(err)]. *)
Definition try_except {A} (body : M A) (handler : Exc → M A) : M A :=
  λ w, match body w with
       | (Ok a, w') => (Ok a, w')
       | (Raised e, w') => handler e w'
       end.

Definition gets {A} (f : World → A) : M A := λ w, (Ok (f w), w).
Definition modify_self (f : Coordinator → Coordinator) : M unit :=
  λ w, (Ok tt, set_self f w).
Definition log_call (c : Call) : M unit := λ w, (Ok tt, add_call c w).

#[global] Instance M_ret : MRet M := @ret.
#[global] Instance M_bind : MBind M := λ A B k m, bind m k.

(** ** coordinator.py: [OpenSenseMapCoordinator] *)

Definition HTTP_TIMEOUT : Z := 30.

(** [__init__(hass, entry)]: [entry.data[CONF_BOX_ID]] raises [KeyError]
    when the key is missing. *)
Definition __init__ (entry : ConfigEntry) : Result Coordinator :=
  match dict_get (data entry) CONF_BOX_ID with
  | None => Raised (mkExc KeyError "'box_id'")
  | Some box_id =>
      let access_token := dict_get (data entry) CONF_ACCESS_TOKEN in
      let interval :=
        default (default DEFAULT_UPDATE_INTERVAL (update_interval_item (data entry)))
                (update_interval_item (options entry)) in
      Ok (mkCoordinator box_id access_token false None None 0 None interval)
  end.

(** The [debug_mode] property. *)
Definition debug_mode (w : World) : bool :=
  default (default false (debug_mode_item (data (entry w))))
          (debug_mode_item (options (entry w))).

(** The [next_upload] property. *)
Definition next_upload (c : Coordinator) : option Z :=
  match last_upload c with
  | Some t => Some (t + update_interval c)
  | None => None
  end.

(** [state is None or state.state in ("unknown", "unavailable", None)]. *)
Definition state_missing (st : option State) : bool :=
  match st with
  | None => true
  | Some st =>
      match state st with
      | None => true
      | Some s => str_in s ["unknown"; "unavailable"]
      end
  end.

(** [hass.states.get(entity_id)]. *)
Definition states_get (w : World) (entity_id : option string) : option State :=
  states w !! default "" entity_id.

(** [_all_sensors_available]: the loop over [SENSOR_CONFIGS] with the list
    [unavailable] as its accumulator. *)
Definition _all_sensors_available (w : World) : bool * list string :=
  let config_data := data (entry w) in
  let options := options (entry w) in
  let unavailable :=
    foldl (λ (unavailable : list string) cfg,
             let sensor_id := get_option_or_data options config_data (sensor_id_key cfg) in
             let entity_id := get_option_or_data options config_data (entity_key cfg) in
             if negb (truthy sensor_id) || negb (truthy entity_id) then unavailable
             else
               let st := states_get w entity_id in
               if state_missing st then (unavailable ++ [default "" entity_id])%list
               else unavailable)
          [] SENSOR_CONFIGS in
  (bool_decide (length unavailable = 0%nat), unavailable).

(** The dictionary returned by [_get_status_data]; the key [last_request]
    is present when the field is [Some]. *)
Record StatusData := mkStatusData {
  sd_last_upload : option string;
  sd_last_error : option string;
  sd_upload_count : Z;
  sd_next_upload : option string;
  sd_box_id : string;
  sd_last_request : option RequestData
}.

(** A dictionary with the three keys of [last_request_data] is truthy. *)
Definition truthy_request (o : option RequestData) : bool :=
  match o with Some _ => true | None => false end.

Section Coordinator.
Context {rt : PyRuntime}.

(** [_collect_sensor_data]: the loop over [SENSOR_CONFIGS] with the
    dictionary [data] as its accumulator. *)
Definition _collect_sensor_data (w : World) : gmap string string :=
  let config_data := data (entry w) in
  let options := options (entry w) in
  foldl (λ (data : gmap string string) cfg,
           let sensor_id := get_option_or_data options config_data (sensor_id_key cfg) in
           let entity_id := get_option_or_data options config_data (entity_key cfg) in
           if negb (truthy sensor_id) || negb (truthy entity_id) then data
           else
             let st := states_get w entity_id in
             if state_missing st then data
             else
               match st with
               | Some (mkState (Some raw) _ as st) =>
                   match py_float raw with
                   | Some value =>
                       let value := _convert_value (measurement_type cfg) value st in
                       <[default "" sensor_id := format_2f value]> data
                   | None => data
                   end
               | _ => data
               end)
        ∅ SENSOR_CONFIGS.

(** [self.last_upload.isoformat() if self.last_upload else None]. *)
Definition isoformat_opt (t : option Z) : option string := isoformat <$> t.

Definition _get_status_data (w : World) : StatusData :=
  let c := self w in
  mkStatusData (isoformat_opt (last_upload c))
               (last_error c)
               (upload_count c)
               (isoformat_opt (next_upload c))
               (_box_id c)
               (if debug_mode w && truthy_request (last_request_data c)
                then last_request_data c else None).

(** The headers of the request: the two fixed ones, and [Authorization]
    when the access token is truthy. *)
Definition build_headers (access_token : option string) : gmap string string :=
  let headers : gmap string string :=
    <["User-Agent" := SOFTWARE_TYPE +:+ "/1.0.0"]>
      (<["Content-Type" := "application/json; charset=utf-8"]> ∅) in
  if truthy access_token
  then <["Authorization" := "Bearer " +:+ default "" access_token]> headers
  else headers.

(** [{k: v if k != "Authorization" else "***" for k, v in headers.items()}]. *)
Definition redact_headers (headers : gmap string string) : gmap string string :=
  map_imap (λ k v, Some (if bool_decide (k ≠ "Authorization") then v else "***"))
           headers.

(** [self._session.post(url, json=sensor_data, headers=headers)] under the
    timeout, up to the response's status and text. *)
Definition session_post (req : Request) : M (Z * string) :=
  log_call (CallPost req);;
  outcome ← gets (λ w, network w req);
  match outcome with
  | Response status text => mret (status, text)
  | Raises e => raise e
  end.

Definition _push_sensor_data : M (bool * option string) :=
  log_call CallCollect;;
  sensor_data ← gets _collect_sensor_data;
  if bool_decide (sensor_data = ∅) then mret (true, None)
  else
    box_id ← gets (λ w, _box_id (self w));
    access_token ← gets (λ w, _access_token (self w));
    let url := API_URL_format box_id in
    let headers := build_headers access_token in
    debug ← gets debug_mode;
    (if debug : bool
     then modify_self (with_last_request_data
            (Some (mkRequestData url (redact_headers headers) sensor_data)))
     else mret tt);;
    try_except
      ('(status, error_text) ← session_post (mkRequest url sensor_data headers);
       if bool_decide (status ∈ [200; 201]) then mret (true, None)
       else mret (false, Some ("HTTP " +:+ pretty status +:+ ": " +:+ error_text)))
      (λ err,
         match exc_class err with
         | TimeoutError => mret (false, Some "Request timeout")
         | ClientError => mret (false, Some (exc_str err))
         | _ => raise err
         end).

(** The body of the [try] block of [_async_update_data]. *)
Definition update_body : M StatusData :=
  '(all_available, unavailable) ← gets _all_sensors_available;
  if negb all_available then
    modify_self (with_last_error
      (Some ("Sensors unavailable: " +:+ join ", " unavailable)));;
    gets _get_status_data
  else
    session ← gets (λ w, _session (self w));
    (if negb session then modify_self (with_session true) else mret tt);;
    '(success, response) ← _push_sensor_data;
    (if success : bool then
       now ← gets clock;
       modify_self (with_last_upload (Some now));;
       modify_self (λ c, with_upload_count (upload_count c + 1) c);;
       modify_self (with_last_error None)
     else
       modify_self (with_last_error
         (Some (if truthy response then default "" response else "Unknown error"))));;
    gets _get_status_data.

(** [_async_update_data]: one upload cycle. *)
Definition _async_update_data : M StatusData :=
  try_except update_body
    (λ err,
       modify_self (with_last_error (Some (exc_str err)));;
       gets _get_status_data).

(** [async_shutdown]. *)
Definition async_shutdown : M unit :=
  session ← gets (λ w, _session (self w));
  if session : bool then modify_self (with_session false) else mret tt.

End Coordinator.

(** ** sensor.py: [OpenSenseMapStatusSensor] *)

Definition STATUS_PENDING := "pending".
Definition STATUS_OK := "ok".
Definition STATUS_ERROR := "error".
Definition STATUS_OPTIONS := [STATUS_PENDING; STATUS_OK; STATUS_ERROR].

(** The entity refers to the coordinator of the world and keeps the box
    identifier it read from [entry.data] when it was created. *)
Record OpenSenseMapStatusSensor := mkStatusSensor {
  sensor_box_id : string
}.

(** The [native_value] property.  A [datetime] is always truthy. *)
Definition native_value (w : World) : string :=
  if truthy (last_error (self w)) then STATUS_ERROR
  else if bool_decide (is_Some (last_upload (self w))) then STATUS_OK
  else STATUS_PENDING.

(** The dictionary returned by [extra_state_attributes]; an optional key is
    present when its field is [Some]. *)
Record StateAttributes := mkStateAttributes {
  attr_box_id : string;
  attr_upload_count : Z;
  attr_last_upload : option string;
  attr_next_upload : option string;
  attr_last_error : option string;
  attr_last_request : option RequestData
}.

Section Sensor.
Context {rt : PyRuntime}.

Definition extra_state_attributes (s : OpenSenseMapStatusSensor) (w : World)
    : StateAttributes :=
  let coordinator := self w in
  mkStateAttributes
    (sensor_box_id s)
    (upload_count coordinator)
    (isoformat <$> last_upload coordinator)
    (isoformat <$> next_upload coordinator)
    (if truthy (last_error coordinator) then last_error coordinator else None)
    (if debug_mode w && truthy_request (last_request_data coordinator)
     then last_request_data coordinator else None).

End Sensor.

(** The [available] property. *)
Definition available (s : OpenSenseMapStatusSensor) : bool := true.

(** ** config_flow.py *)

(** *** [str.strip()] on UTF-8 encoded text

    The characters Python strips are those with [str.isspace()]:
    U+0009..U+000D, U+001C..U+0020, U+0085, U+00A0, U+1680, U+2000..U+200A,
    U+2028, U+2029, U+202F, U+205F and U+3000. *)

Definition byte (c : ascii) : N := N_of_ascii c.

Definition is_space1 (c : ascii) : bool :=
  let n := byte c in
  ((9 <=? n) && (n <=? 13) || (28 <=? n) && (n <=? 32))%N.

Definition is_space2 (c1 c2 : ascii) : bool :=
  ((byte c1 =? 194) && ((byte c2 =? 133) || (byte c2 =? 160)))%N.

Definition is_space3 (c1 c2 c3 : ascii) : bool :=
  let '(a, b, c) := (byte c1, byte c2, byte c3) in
  ((a =? 225) && (b =? 154) && (c =? 128)
   || (a =? 226) && (b =? 128)
      && ((128 <=? c) && (c <=? 138) || (c =? 168) || (c =? 169) || (c =? 175))
   || (a =? 226) && (b =? 129) && (c =? 159)
   || (a =? 227) && (b =? 128) && (c =? 128))%N.

Fixpoint lstrip (s : string) : string :=
  match s with
  | EmptyString => s
  | String c1 t1 =>
      if is_space1 c1 then lstrip t1
      else
        match t1 with
        | EmptyString => s
        | String c2 t2 =>
            if is_space2 c1 c2 then lstrip t2
            else
              match t2 with
              | EmptyString => s
              | String c3 t3 => if is_space3 c1 c2 c3 then lstrip t3 else s
              end
        end
  end.

(** Stripping the end of [s] is stripping the start of its bytes in reverse
    order, where a character's bytes come last byte first. *)
Fixpoint lstrip_reversed (s : string) : string :=
  match s with
  | EmptyString => s
  | String c1 t1 =>
      if is_space1 c1 then lstrip_reversed t1
      else
        match t1 with
        | EmptyString => s
        | String c2 t2 =>
            if is_space2 c2 c1 then lstrip_reversed t2
            else
              match t2 with
              | EmptyString => s
              | String c3 t3 =>
                  if is_space3 c3 c2 c1 then lstrip_reversed t3 else s
              end
        end
  end.

Definition rstrip (s : string) : string :=
  String.rev (lstrip_reversed (String.rev s)).

Definition strip (s : string) : string := rstrip (lstrip s).

(** *** Identifier patterns *)

(** The character class [[a-fA-F0-9]]. *)
Definition is_hex (c : ascii) : bool :=
  let n := byte c in
  ((48 <=? n) && (n <=? 57) || (65 <=? n) && (n <=? 70)
   || (97 <=? n) && (n <=? 102))%N.

(** [[a-fA-F0-9]{n}] at the start of [s]: the rest of [s] after the match. *)
Fixpoint match_hex (n : nat) (s : string) : option string :=
  match n with
  | O => Some s
  | S n' =>
      match s with
      | String c t => if is_hex c then match_hex n' t else None
      | EmptyString => None
      end
  end.

Definition newline : string := String (ascii_of_N 10) EmptyString.

(** [re.compile(r"^[a-fA-F0-9]{24}$").match(s)] as a boolean: [$] matches at
    the end of the string and before a newline that ends the string. *)
Definition hex24_pattern_match (s : string) : bool :=
  match match_hex 24 s with
  | Some rest => String.eqb rest "" || String.eqb rest newline
  | None => false
  end.

Definition validate_box_id (box_id : string) : bool := hex24_pattern_match box_id.
Definition validate_sensor_id (sensor_id : string) : bool :=
  hex24_pattern_match sensor_id.

(** *** The flows *)

Inductive FlowResult :=
  | ShowForm (step_id : string) (errors : gmap string string)
  | CreateEntry (title : string) (entry_data : Dict)
  | Abort (reason : string).

(** [s[:8]] on an identifier of ASCII characters. *)
Definition first8 (s : string) : string := String.substring 0 8 s.

(** [OpenSenseMapConfigFlow.async_step_options], on the flow's [_data].  The
    box identifier was stored by the first step. *)
Definition async_step_options (_data : Dict) (user_input : option Dict)
    : Dict * FlowResult :=
  match user_input with
  | Some user_input =>
      let _data :=
        mkDict (strs _data)
               (Some (default DEFAULT_UPDATE_INTERVAL (update_interval_item user_input)))
               (Some (default false (debug_mode_item user_input))) in
      (_data,
       CreateEntry ("OpenSenseMap (" +:+ first8 (default "" (dict_get _data CONF_BOX_ID))
                      +:+ "...)")
                   _data)
  | None => (_data, ShowForm "options" ∅)
  end.

(** The state of the loop of [async_step_sensors]. *)
Record SensorsLoop := mkSensorsLoop {
  has_valid_pair : bool;
  loop_data : Dict;
  errors : gmap string string
}.

(** [OpenSenseMapConfigFlow.async_step_sensors], on the flow's [_data]. *)
Definition async_step_sensors (_data : Dict) (user_input : option Dict)
    : Dict * FlowResult :=
  match user_input with
  | Some user_input =>
      let loop :=
        foldl (λ acc cfg,
                 let sensor_id :=
                   strip (default "" (dict_get user_input (sensor_id_key cfg))) in
                 let entity_id := dict_get user_input (entity_key cfg) in
                 if truthy (Some sensor_id) && truthy entity_id then
                   mkSensorsLoop true
                     (dict_set (dict_set (loop_data acc) (sensor_id_key cfg) sensor_id)
                               (entity_key cfg) (default "" entity_id))
                     (errors acc)
                 else if truthy (Some sensor_id) || truthy entity_id then
                   mkSensorsLoop (has_valid_pair acc) (loop_data acc)
                     (<["base" := "incomplete_sensor_pair"]> (errors acc))
                 else acc)
              (mkSensorsLoop false _data ∅) SENSOR_CONFIGS in
      let errors :=
        if negb (has_valid_pair loop) && bool_decide (errors loop !! "base" = None)
        then <["base" := "no_sensor_configured"]> (errors loop)
        else errors loop in
      if bool_decide (errors = ∅)
      then async_step_options (loop_data loop) None
      else (loop_data loop, ShowForm "sensors" errors)
  | None => (_data, ShowForm "sensors" ∅)
  end.

(** [OpenSenseMapConfigFlow.async_step_user]; [configured] lists the unique
    identifiers of the entries that exist, and the form's schema requires
    the key [box_id]. *)
Definition async_step_user (configured : list string) (_data : Dict)
    (user_input : option Dict) : Dict * FlowResult :=
  match user_input with
  | Some user_input =>
      let box_id := strip (default "" (dict_get user_input CONF_BOX_ID)) in
      let access_token := strip (default "" (dict_get user_input CONF_ACCESS_TOKEN)) in
      if negb (validate_box_id box_id)
      then (_data, ShowForm "user" {[ "base" := "invalid_box_id" ]})
      else if bool_decide (box_id ∈ configured)
      then (_data, Abort "already_configured")
      else
        let _data := dict_set _data CONF_BOX_ID box_id in
        let _data :=
          if truthy (Some access_token)
          then dict_set _data CONF_ACCESS_TOKEN access_token
          else _data in
        async_step_sensors _data None
  | None => (_data, ShowForm "user" ∅)
  end.

(** The state of the loop of [OpenSenseMapOptionsFlow.async_step_init]. *)
Record InitLoop := mkInitLoop {
  init_has_valid_pair : bool;
  valid_data : Dict
}.

(** [OpenSenseMapOptionsFlow.async_step_init]: the entry created by the
    options flow is the new [options] dictionary of the config entry. *)
Definition async_step_init (user_input : option Dict) : FlowResult :=
  match user_input with
  | Some user_input =>
      let loop :=
        foldl (λ acc cfg,
                 let sensor_id :=
                   if truthy (dict_get user_input (sensor_id_key cfg))
                   then strip (default "" (dict_get user_input (sensor_id_key cfg)))
                   else "" in
                 let entity_id := dict_get user_input (entity_key cfg) in
                 if truthy (Some sensor_id) && truthy entity_id then
                   mkInitLoop true
                     (dict_set (dict_set (valid_data acc) (sensor_id_key cfg) sensor_id)
                               (entity_key cfg) (default "" entity_id))
                 else acc)
              (mkInitLoop false empty_dict) SENSOR_CONFIGS in
      if negb (init_has_valid_pair loop)
      then ShowForm "init" {[ "base" := "no_sensor_configured" ]}
      else
        CreateEntry ""
          (mkDict (strs (valid_data loop))
                  (Some (default DEFAULT_UPDATE_INTERVAL (update_interval_item user_input)))
                  (Some (default false (debug_mode_item user_input))))
  | None => ShowForm "init" ∅
  end.

(** ** A runtime to run the model on examples

    The theorems below hold for every [PyRuntime].  To evaluate the methods
    on concrete worlds, this instance reads plain decimal numerals (an
    optional sign, digits, an optional fraction, blanks around them) and
    rejects every other string; on a numeral of at most 15 significant
    digits its result is the correctly rounded quotient, as [float(s)] is.
    It prints [.2f] from the exact binary value, rounding half to even, and
    prints a time as its number of seconds. *)

Definition digit_of (c : ascii) : option Z :=
  let n := byte c in
  if ((48 <=? n) && (n <=? 57))%N then Some (Z.of_N n - 48) else None.

(** Reads a run of digits: the number read after [acc], how many digits were
    read, and the rest of the string. *)
Fixpoint read_digits (s : string) (acc : Z) (count : nat) : Z * nat * string :=
  match s with
  | EmptyString => (acc, count, s)
  | String c t =>
      match digit_of c with
      | Some d => read_digits t (acc * 10 + d) (S count)
      | None => (acc, count, s)
      end
  end.

Definition split_sign (s : string) : bool * string :=
  match s with
  | String c t =>
      if (byte c =? 45)%N then (true, t)
      else if (byte c =? 43)%N then (false, t)
      else (false, s)
  | EmptyString => (false, s)
  end.

Definition signed (negative : bool) (x : PyFloat.float) : PyFloat.float :=
  if negative then SFopp x else x.

Definition decimal_float (s : string) : option PyFloat.float :=
  let '(negative, s) := split_sign (strip s) in
  let '(int_part, n1, rest) := read_digits s 0 0 in
  match rest with
  | EmptyString =>
      if bool_decide (n1 = 0%nat) then None
      else Some (signed negative (PyFloat.of_Z int_part))
  | String c t =>
      if (byte c =? 46)%N then
        let '(all, n2, rest2) := read_digits t int_part 0 in
        if String.eqb rest2 "" && negb (bool_decide ((n1 + n2)%nat = 0%nat))
        then Some (signed negative
                     (PyFloat.div (PyFloat.of_Z all) (PyFloat.of_Z (10 ^ Z.of_nat n2))))
        else None
      else None
  end.

(** The integer nearest to [m * 2^e], ties to even. *)
Definition round_half_even (m e : Z) : Z :=
  (if 0 <=? e then m * 2 ^ e
   else
     let d := 2 ^ (- e) in
     let q := m / d in
     let r := m mod d in
     if 2 * r <? d then q
     else if d <? 2 * r then q + 1
     else if Z.even q then q else q + 1)%Z.

Definition two_digits (n : Z) : string :=
  if (n <? 10)%Z then "0" +:+ pretty n else pretty n.

Definition fixed_2f (x : PyFloat.float) : string :=
  match x with
  | S754_nan => "nan"
  | S754_infinity s => if s then "-inf" else "inf"
  | S754_zero s => if s then "-0.00" else "0.00"
  | S754_finite s m e =>
      let hundredths := round_half_even (Z.pos m * 100) e in
      (if s then "-" else "") +:+ pretty (hundredths / 100) +:+ "."
        +:+ two_digits (hundredths mod 100)
  end.

Definition decimal_runtime : PyRuntime :=
  {| py_float := decimal_float; format_2f := fixed_2f; isoformat := pretty |}.

(** ** Notions the statements use *)

(** A row of [SENSOR_CONFIGS] is active when the entry gives it both a
    sensor identifier and a source. *)
Definition sensor_id_of (w : World) (cfg : SensorConfig) : option string :=
  get_option_or_data (options (entry w)) (data (entry w)) (sensor_id_key cfg).

Definition entity_id_of (w : World) (cfg : SensorConfig) : option string :=
  get_option_or_data (options (entry w)) (data (entry w)) (entity_key cfg).

Definition active (w : World) (cfg : SensorConfig) : bool :=
  truthy (sensor_id_of w cfg) && truthy (entity_id_of w cfg).

(** The sources of the active rows that are absent, unknown or unavailable,
    in the order of [SENSOR_CONFIGS]. *)
Definition unavailable_sources_of (w : World) (cfgs : list SensorConfig)
    : list string :=
  omap (λ cfg,
          if active w cfg && state_missing (states_get w (entity_id_of w cfg))
          then Some (default "" (entity_id_of w cfg)) else None)
       cfgs.

Definition unavailable_sources (w : World) : list string :=
  unavailable_sources_of w SENSOR_CONFIGS.

(** The same world with another network, access token or call log. *)
Definition with_network (net : Request → NetOutcome) (w : World) : World :=
  mkWorld (entry w) (states w) net (clock w) (self w) (calls w).

Definition with_access_token (token : option string) (c : Coordinator)
    : Coordinator :=
  mkCoordinator (_box_id c) token (_session c) (last_upload c) (last_error c)
                (upload_count c) (last_request_data c) (update_interval c).

Section Notions.
Context {rt : PyRuntime}.

(** The request a push sends when its payload is not empty. *)
Definition request_of (w : World) : Request :=
  mkRequest (API_URL_format (_box_id (self w)))
            (_collect_sensor_data w)
            (build_headers (_access_token (self w))).

(** The snapshot a push records in debug mode. *)
Definition snapshot_of (w : World) : RequestData :=
  mkRequestData (API_URL_format (_box_id (self w)))
                (redact_headers (build_headers (_access_token (self w))))
                (_collect_sensor_data w).

(** The world after one cycle, and what the cycle returned. *)
Definition after_cycle (w : World) : World := snd (_async_update_data w).
Definition cycle_result (w : World) : Result StatusData := fst (_async_update_data w).

(** The world after one push. *)
Definition after_push (w : World) : World := snd (_push_sensor_data w).

(** What a push returns or raises, and the world it leaves, written out
    case by case; [push_run] below proves them equal to the method. *)
Definition push_outcome (w : World) : Result (bool * option string) :=
  if bool_decide (_collect_sensor_data w = ∅) then Ok (true, None)
  else
    match network w (request_of w) with
    | Response status text =>
        if bool_decide (status ∈ [200; 201]) then Ok (true, None)
        else Ok (false, Some ("HTTP " +:+ pretty status +:+ ": " +:+ text))
    | Raises e =>
        match exc_class e with
        | TimeoutError => Ok (false, Some "Request timeout")
        | ClientError => Ok (false, Some (exc_str e))
        | _ => Raised e
        end
    end.

Definition push_world (w : World) : World :=
  let w1 := add_call CallCollect w in
  if bool_decide (_collect_sensor_data w = ∅) then w1
  else
    add_call (CallPost (request_of w))
      (if debug_mode w
       then set_self (with_last_request_data (Some (snapshot_of w))) w1
       else w1).

(** The assignments of a successful cycle. *)
Definition record_success (now : Z) (c : Coordinator) : Coordinator :=
  with_last_error None
    (with_upload_count (upload_count c + 1) (with_last_upload (Some now) c)).

(** The world a cycle leaves, case by case; [cycle_run] below. *)
Definition cycle_world (w : World) : World :=
  if fst (_all_sensors_available w) then
    let w0 := if _session (self w) then w else set_self (with_session true) w in
    match push_outcome w with
    | Ok (true, _) => set_self (record_success (clock w)) (push_world w0)
    | Ok (false, response) =>
        set_self (with_last_error
                    (Some (if truthy response then default "" response
                           else "Unknown error")))
                 (push_world w0)
    | Raised e => set_self (with_last_error (Some (exc_str e))) (push_world w0)
    end
  else
    set_self (with_last_error
                (Some ("Sensors unavailable: "
                       +:+ join ", " (snd (_all_sensors_available w)))))
             w.

End Notions.

(** Whether a network outcome is an upload failure, and the message the
    specification gives for it: the stringified error for an exception. *)
Definition is_failure (o : NetOutcome) : bool :=
  match o with
  | Response status _ => negb (bool_decide (status ∈ [200; 201]))
  | Raises _ => true
  end.

Definition stated_failure_message (o : NetOutcome) : string :=
  match o with
  | Response status text => "HTTP " +:+ pretty status +:+ ": " +:+ text
  | Raises e =>
      match exc_class e with
      | TimeoutError => "Request timeout"
      | _ => exc_str e
      end
  end.

(** The message the coordinator records: as stated, except that a transport
    error whose string is empty is recorded as [Unknown error]. *)
Definition recorded_failure_message (o : NetOutcome) : string :=
  match o with
  | Raises (mkExc ClientError msg) =>
      if String.eqb msg "" then "Unknown error" else msg
  | _ => stated_failure_message o
  end.

(** ** Sample values *)

(** The reading -0.5. *)
Definition minus_half : PyFloat.float := PyFloat.of_hundredths (-50).

(** A box with one mapped measurement, humidity, as the config flow stores
    it in [entry.data]; debug mode is on. *)
Definition sample_data : Dict :=
  mkDict {[ CONF_BOX_ID := "0123456789abcdef01234567";
            CONF_ACCESS_TOKEN := "s3cr3t";
            CONF_SENSOR_ID_HUMIDITY := "89abcdef0123456789abcdef";
            CONF_ENTITY_HUMIDITY := "sensor.humidity" ]}
         (Some 300) (Some true).

Definition sample_entry : ConfigEntry := mkConfigEntry sample_data empty_dict.

(** The coordinator [__init__] builds from [sample_entry]. *)
Definition sample_coordinator : Coordinator :=
  mkCoordinator "0123456789abcdef01234567" (Some "s3cr3t") false None None 0 None 300.

(** [hass.states] with the humidity source in state [raw]. *)
Definition humidity_reading (raw : string) : gmap string State :=
  {[ "sensor.humidity" := mkState (Some raw) {[ "unit_of_measurement" := "%" ]} ]}.

(** A world at time 1000 whose network answers every request with
    [outcome]. *)
Definition sample_world (raw : string) (outcome : NetOutcome) : World :=
  mkWorld sample_entry (humidity_reading raw) (λ _, outcome) 1000
          sample_coordinator [].

Definition humidity_config : SensorConfig :=
  mkSensorConfig CONF_SENSOR_ID_HUMIDITY CONF_ENTITY_HUMIDITY "Humidity"
                 MEASUREMENT_HUMIDITY.

(** The requests among the calls. *)
Definition posted_requests (l : list Call) : list Request :=
  omap (λ c, match c with CallPost req => Some req | CallCollect => None end) l.

(** The options an options flow stores for the sample box, with the debug
    flag as given. *)
Definition sample_options (debug : bool) : Dict :=
  mkDict {[ CONF_SENSOR_ID_HUMIDITY := "89abcdef0123456789abcdef";
            CONF_ENTITY_HUMIDITY := "sensor.humidity" ]}
         (Some 300) (Some debug).

Definition sample_entry_with_debug (debug : bool) : ConfigEntry :=
  mkConfigEntry sample_data (sample_options debug).

(** The sample entry after an update of its box, its token and its update
    interval. *)
Definition reconfigured_entry : ConfigEntry :=
  mkConfigEntry
    (mkDict {[ CONF_BOX_ID := "76543210fedcba9876543210";
               CONF_ACCESS_TOKEN := "n3w-t0k3n";
               CONF_SENSOR_ID_HUMIDITY := "89abcdef0123456789abcdef";
               CONF_ENTITY_HUMIDITY := "sensor.humidity" ]}
            (Some 300) (Some true))
    (mkDict ∅ (Some 600) None).

(** The coordinator built from [sample_entry], in a world whose entry has
    become [reconfigured_entry]. *)
Definition reconfigured_world : World :=
  mkWorld reconfigured_entry (humidity_reading "0.45") (λ _, Response 200 "")
          1000 sample_coordinator [].

(** A sensors form whose sensor identifier is not 24 hexadecimal digits, and
    the flow's [_data] after the first step. *)
Definition malformed_form : Dict :=
  mkDict {[ CONF_SENSOR_ID_HUMIDITY := "xyz";
            CONF_ENTITY_HUMIDITY := "sensor.humidity" ]}
         None None.

Definition data_after_user_step : Dict :=
  mkDict {[ CONF_BOX_ID := "0123456789abcdef01234567" ]} None None.

Definition data_with_malformed_id : Dict :=
  mkDict {[ CONF_BOX_ID := "0123456789abcdef01234567";
            CONF_SENSOR_ID_HUMIDITY := "xyz";
            CONF_ENTITY_HUMIDITY := "sensor.humidity" ]}
         None None.

(** The sample world after a first, successful upload, with a network that
    now raises an exception whose message is empty. *)
Definition failing_world_after_upload : World :=
  with_network (λ _, Raises (mkExc OtherException ""))
    (@after_cycle decimal_runtime (sample_world "0.45" (Response 200 ""))).

(** ** Further notions *)

(** What the timer hands to a cycle: the entry, the states, the network and
    the clock as they are when the cycle starts.  The coordinator object is
    what persists from one cycle to the next. *)
Record Env := mkEnv {
  env_entry : ConfigEntry;
  env_states : gmap string State;
  env_network : Request → NetOutcome;
  env_clock : Z
}.

Definition world_of (env : Env) (c : Coordinator) : World :=
  mkWorld (env_entry env) (env_states env) (env_network env) (env_clock env) c [].

Section History.
Context {rt : PyRuntime}.

(** The coordinator after one cycle in each of the environments, in order. *)
Definition run_cycles (envs : list Env) (c : Coordinator) : Coordinator :=
  foldl (λ c env, self (after_cycle (world_of env c))) c envs.

(** What a row adds to the payload: its sensor identifier and the formatted
    value, when the row is active, its source is present and neither
    unknown nor unavailable, and its state reads as a float. *)
Definition contribution (w : World) (cfg : SensorConfig) : option (string * string) :=
  if active w cfg then
    match states_get w (entity_id_of w cfg) with
    | Some st =>
        match state st with
        | Some raw =>
            if str_in raw ["unknown"; "unavailable"] then None
            else
              match py_float raw with
              | Some value =>
                  Some (default "" (sensor_id_of w cfg),
                        format_2f (_convert_value (measurement_type cfg) value st))
              | None => None
              end
        | None => None
        end
    | None => None
    end
  else None.

Definition contributions (w : World) (cfgs : list SensorConfig)
    : list (string * string) :=
  omap (contribution w) cfgs.

End History.

(** The stripped sensor identifier and the source a sensors form gives for a
    row, as [async_step_sensors] reads them. *)
Definition form_sensor_id (user_input : Dict) (cfg : SensorConfig) : string :=
  strip (default "" (dict_get user_input (sensor_id_key cfg))).

Definition form_entity_id (user_input : Dict) (cfg : SensorConfig) : option string :=
  dict_get user_input (entity_key cfg).

Definition complete_pair (user_input : Dict) (cfg : SensorConfig) : bool :=
  truthy (Some (form_sensor_id user_input cfg)) && truthy (form_entity_id user_input cfg).

Definition incomplete_pair (user_input : Dict) (cfg : SensorConfig) : bool :=
  negb (complete_pair user_input cfg)
  && (truthy (Some (form_sensor_id user_input cfg))
      || truthy (form_entity_id user_input cfg)).

(** The characters of a string, and hexadecimal digits throughout. *)
Fixpoint chars (s : string) : list ascii :=
  match s with
  | EmptyString => []
  | String c t => c :: chars t
  end.

Definition all_hex (s : string) : bool := forallb is_hex (chars s).
(** * Properties *)

(** ** Unit conversion *)

Lemma SFcompare_antisym (x y : spec_float) :
  SFcompare y x = CompOpp <$> SFcompare x y.
Proof.
  destruct x as [sx|sx| |sx mx ex], y as [sy|sy| |sy my ey]; simpl;
    try reflexivity; try (destruct sx; reflexivity);
    try (destruct sy; reflexivity);
    try (destruct sx, sy; reflexivity).
  destruct sx, sy; simpl; try reflexivity;
    rewrite (Z.compare_antisym ey ex);
    destruct (ey ?= ex)%Z eqn:E; simpl; try reflexivity;
    change (PosDef.Pos.compare_cont Eq my mx) with (Pos.compare_cont (CompOpp Eq) my mx);
    rewrite <- (Pos.compare_cont_antisym mx my Eq);
    destruct (Pos.compare_cont Eq mx my); reflexivity.
Qed.

Lemma gtb_leb_exclusive (x y : PyFloat.float) :
  (x >? y)%F = true → (x <=? y)%F = false.
Proof.
  unfold PyFloat.gtb, PyFloat.ltb, PyFloat.leb, SFltb, SFleb.
  rewrite (SFcompare_antisym x y).
  destruct (SFcompare x y) as [[]|]; simpl; congruence.
Qed.

(** C1, as the code has it: a humidity reading is multiplied by 100 exactly
    when it is at most 1, which includes zero and every negative reading,
    and every other reading (above 1, or not a number) is returned
    unchanged. *)
Theorem convert_humidity_scales_up_to_one (value : PyFloat.float) (st : State) :
  _convert_value MEASUREMENT_HUMIDITY value st
  = if (value <=? PyFloat.of_Z 1)%F then (value * PyFloat.of_Z 100)%F else value.
Proof.
  unfold _convert_value.
  change (String.eqb MEASUREMENT_HUMIDITY MEASUREMENT_TEMPERATURE) with false.
  change (String.eqb MEASUREMENT_HUMIDITY MEASUREMENT_PRESSURE) with false.
  change (String.eqb MEASUREMENT_HUMIDITY MEASUREMENT_HUMIDITY) with true.
  cbv iota.
  destruct (value >? PyFloat.of_Z 1)%F eqn:Hgt; cbv beta iota delta [andb].
  - rewrite (gtb_leb_exclusive _ _ Hgt).
    destruct (value <=? PyFloat.of_Z 100)%F; reflexivity.
  - reflexivity.
Qed.

(** C1, as stated, fails at -0.5: the reading is at most 0, and the
    converter returns -50, not the reading. *)
Lemma convert_humidity_negative_is_scaled :
  (minus_half <=? PyFloat.of_Z 0)%F = true
  ∧ _convert_value MEASUREMENT_HUMIDITY minus_half (mkState (Some "-0.5") ∅)
    = PyFloat.of_Z (-50)
  ∧ PyFloat.of_Z (-50) ≠ minus_half.
Proof. repeat split; vm_compute; congruence. Qed.

(** ** Running a method *)

Ltac run_monad :=
  cbv beta iota zeta delta
    [mbind M_bind bind mret M_ret ret log_call gets try_except session_post
     modify_self raise fst snd negb].

Ltac run_world :=
  cbv beta iota zeta delta
    [mbind M_bind bind mret M_ret ret log_call gets try_except session_post
     modify_self raise network add_call set_self update_entry self entry states
     clock calls fst snd negb].

Section Runs.
Context {rt : PyRuntime}.

Lemma push_run (w : World) :
  _push_sensor_data w = (push_outcome w, push_world w).
Proof.
  unfold _push_sensor_data, push_outcome, push_world, request_of, snapshot_of.
  run_monad.
  change (_collect_sensor_data (add_call CallCollect w)) with (_collect_sensor_data w).
  destruct (bool_decide (_collect_sensor_data w = ∅)); [reflexivity|].
  change (debug_mode (add_call CallCollect w)) with (debug_mode w).
  destruct (debug_mode w); run_monad;
    (destruct w as [e s n c me l]; run_world;
     destruct (n _) as [status text|[[] msg]]; run_world;
     [destruct (bool_decide (status ∈ [200; 201]))|..]; reflexivity).
Qed.

(** Opening the session changes neither what a push returns nor what it
    records. *)
Lemma push_outcome_session (w : World) :
  push_outcome (set_self (with_session true) w) = push_outcome w.
Proof. reflexivity. Qed.

(** A push leaves the entry, the states, the network and the clock alone. *)
Lemma push_world_frame (w : World) :
  entry (push_world w) = entry w ∧ states (push_world w) = states w
  ∧ network (push_world w) = network w ∧ clock (push_world w) = clock w.
Proof.
  unfold push_world.
  destruct (bool_decide (_collect_sensor_data w = ∅)), (debug_mode w);
    repeat split; reflexivity.
Qed.

Lemma cycle_run (w : World) :
  _async_update_data w = (Ok (_get_status_data (cycle_world w)), cycle_world w).
Proof.
  unfold _async_update_data, update_body, cycle_world.
  run_monad.
  destruct (_all_sensors_available w) as [[] unavailable]; run_monad;
    [|reflexivity].
  destruct (_session (self w)) eqn:Hs; run_monad;
    rewrite push_run; [|rewrite push_outcome_session];
    destruct (push_outcome w) as [[[] response]|e]; try reflexivity;
    rewrite (proj2 (proj2 (proj2 (push_world_frame _)))); reflexivity.
Qed.

Lemma after_cycle_eq (w : World) : after_cycle w = cycle_world w.
Proof. unfold after_cycle. rewrite cycle_run. reflexivity. Qed.

Lemma after_push_eq (w : World) : after_push w = push_world w.
Proof. unfold after_push. rewrite push_run. reflexivity. Qed.

End Runs.

(** ** The availability gate *)

Lemma unavailable_loop (w : World) (cfgs : list SensorConfig) (acc : list string) :
  foldl (λ (unavailable : list string) cfg,
           let sensor_id :=
             get_option_or_data (options (entry w)) (data (entry w)) (sensor_id_key cfg) in
           let entity_id :=
             get_option_or_data (options (entry w)) (data (entry w)) (entity_key cfg) in
           if negb (truthy sensor_id) || negb (truthy entity_id) then unavailable
           else
             let st := states_get w entity_id in
             if state_missing st then (unavailable ++ [default "" entity_id])%list
             else unavailable)
        acc cfgs
  = (acc ++ unavailable_sources_of w cfgs)%list.
Proof.
  revert acc. induction cfgs as [|cfg cfgs IH]; intros acc; simpl.
  - by rewrite app_nil_r.
  - rewrite IH. unfold active, sensor_id_of, entity_id_of.
    destruct (truthy (get_option_or_data _ _ (sensor_id_key cfg))),
             (truthy (get_option_or_data _ _ (entity_key cfg))); simpl;
      try reflexivity.
    destruct (state_missing _); simpl; [|reflexivity].
    by rewrite <- app_assoc.
Qed.

Lemma gate_run (w : World) :
  _all_sensors_available w
  = (bool_decide (unavailable_sources w = []), unavailable_sources w).
Proof.
  unfold _all_sensors_available, unavailable_sources.
  rewrite unavailable_loop, app_nil_l.
  generalize (unavailable_sources_of w SENSOR_CONFIGS).
  intros [|x l]; reflexivity.
Qed.

Section Gate.
Context {rt : PyRuntime}.

(** The calls of a cycle: none when the gate closes; otherwise the
    collection, and the request when the payload is not empty. *)
Lemma cycle_calls (w : World) :
  calls (after_cycle w)
  = (calls w ++
     if bool_decide (unavailable_sources w = []) then
       CallCollect ::
         (if bool_decide (_collect_sensor_data w = ∅) then []
          else [CallPost (request_of w)])
     else [])%list.
Proof.
  rewrite after_cycle_eq. unfold cycle_world. rewrite gate_run.
  cbn [fst snd].
  destruct (bool_decide (unavailable_sources w = [])).
  - unfold push_outcome, push_world.
    destruct (_session (self w)); cbn zeta.
    all: change (_collect_sensor_data (set_self _ w)) with (_collect_sensor_data w).
    all: change (debug_mode (set_self _ w)) with (debug_mode w).
    all: destruct (bool_decide (_collect_sensor_data w = ∅));
      [reflexivity|].
    all: destruct (debug_mode w);
      destruct (network w (request_of w)) as [status text|[[] msg]];
      try destruct (bool_decide (status ∈ [200; 201]));
      cbn [calls set_self add_call exc_class exc_str];
      rewrite <- app_assoc; reflexivity.
  - cbn [calls set_self]. by rewrite app_nil_r.
Qed.

(** C5: when an active row's source is absent, unknown or unavailable, the
    cycle records "Sensors unavailable: " followed by the sources of the
    active rows that are missing, joined by ", ", makes no call (no
    collection, no request), leaves the upload time, the count and the
    snapshot alone and returns the status; the sources listed are exactly
    those of active rows, so a row without a sensor identifier or without a
    source is not looked at. *)
Theorem unavailable_source_skips_cycle (w : World) (cfg : SensorConfig) :
  cfg ∈ SENSOR_CONFIGS →
  active w cfg = true →
  state_missing (states_get w (entity_id_of w cfg)) = true →
  last_error (self (after_cycle w))
    = Some ("Sensors unavailable: " +:+ join ", " (unavailable_sources w))
  ∧ calls (after_cycle w) = calls w
  ∧ last_upload (self (after_cycle w)) = last_upload (self w)
  ∧ upload_count (self (after_cycle w)) = upload_count (self w)
  ∧ last_request_data (self (after_cycle w)) = last_request_data (self w)
  ∧ cycle_result w = Ok (_get_status_data (after_cycle w))
  ∧ (∀ source, source ∈ unavailable_sources w ↔
       ∃ row, row ∈ SENSOR_CONFIGS ∧ active w row = true
              ∧ state_missing (states_get w (entity_id_of w row)) = true
              ∧ source = default "" (entity_id_of w row)).
Proof.
  intros Hin Hact Hmiss.
  assert (Hspec : ∀ source, source ∈ unavailable_sources w ↔
       ∃ row, row ∈ SENSOR_CONFIGS ∧ active w row = true
              ∧ state_missing (states_get w (entity_id_of w row)) = true
              ∧ source = default "" (entity_id_of w row)).
  { intros source. unfold unavailable_sources, unavailable_sources_of.
    rewrite list_elem_of_omap. split.
    - intros (row & Hrow & Heq).
      destruct (active w row) eqn:Ha,
               (state_missing (states_get w (entity_id_of w row))) eqn:Hm;
        simpl in Heq; try discriminate.
      exists row. inversion Heq. auto.
    - intros (row & Hrow & Ha & Hm & ->). exists row. split; [done|].
      by rewrite Ha, Hm. }
  assert (Hne : unavailable_sources w ≠ []).
  { intros Hnil.
    assert (Hx : default "" (entity_id_of w cfg) ∈ unavailable_sources w)
      by (apply Hspec; eauto).
    rewrite Hnil in Hx. by apply not_elem_of_nil in Hx. }
  assert (Hclosed : bool_decide (unavailable_sources w = []) = false)
    by (by apply bool_decide_eq_false).
  split_and!; try done.
  2: { rewrite cycle_calls, Hclosed. by rewrite app_nil_r. }
  5: { unfold cycle_result, after_cycle. by rewrite cycle_run. }
  all: rewrite after_cycle_eq; unfold cycle_world;
    rewrite gate_run, Hclosed; reflexivity.
Qed.

End Gate.

(** C5 at a world whose humidity source is unavailable. *)
Lemma unavailable_source_skips_cycle_witness :
  let w := sample_world "unavailable" (Response 200 "") in
  last_error (self (@after_cycle decimal_runtime w))
    = Some "Sensors unavailable: sensor.humidity"
  ∧ calls (@after_cycle decimal_runtime w) = [].
Proof.
  pose proof (@unavailable_source_skips_cycle decimal_runtime
                (sample_world "unavailable" (Response 200 ""))
                humidity_config) as H.
  destruct H as (Herr & Hcalls & _).
  - unfold SENSOR_CONFIGS, humidity_config. set_solver.
  - vm_compute. reflexivity.
  - vm_compute. reflexivity.
  - split; [exact Herr | exact Hcalls].
Defined.

(** ** The upload cycle *)

(** Splits a goal about [cycle_world w] into the paths of the cycle. *)
Ltac cycle_paths w :=
  unfold cycle_world, push_outcome, push_world;
  destruct (fst (_all_sensors_available w)) eqn:Hgate;
  [ destruct (_session (self w)) eqn:Hsession; cbn zeta;
    change (_collect_sensor_data (set_self (with_session true) w))
      with (_collect_sensor_data w);
    change (debug_mode (set_self (with_session true) w)) with (debug_mode w);
    change (request_of (set_self (with_session true) w)) with (request_of w);
    change (network (set_self (with_session true) w)) with (network w);
    (destruct (bool_decide (_collect_sensor_data w = ∅)) eqn:Hpayload;
     [ | destruct (debug_mode w) eqn:Hdebug;
         (destruct (network w (request_of w)) as [status text|[[] msg]] eqn:Hnet;
          [ destruct (bool_decide (status ∈ [200; 201])) eqn:Hstatus | .. ]) ])
  | ];
  cbn [self set_self add_call calls entry states network clock exc_class exc_str
       last_error last_upload upload_count last_request_data _box_id
       _access_token _session update_interval record_success with_last_error
       with_last_upload with_upload_count with_last_request_data with_session
       truthy default].

Section Cycle.
Context {rt : PyRuntime}.


(** C7: when the collector yields an empty payload, the push returns success
    after the collection alone, without a request, and a cycle whose gate is
    open counts an upload: the count grows by one, the upload time is the
    time of the cycle, [last_error] is cleared, and the cycle made no
    request either. *)
Theorem empty_payload_is_success (w : World) :
  fst (_all_sensors_available w) = true →
  _collect_sensor_data w = ∅ →
  fst (_push_sensor_data w) = Ok (true, None)
  ∧ calls (after_push w) = (calls w ++ [CallCollect])%list
  ∧ upload_count (self (after_cycle w)) = upload_count (self w) + 1
  ∧ last_upload (self (after_cycle w)) = Some (clock w)
  ∧ last_error (self (after_cycle w)) = None
  ∧ calls (after_cycle w) = (calls w ++ [CallCollect])%list.
Proof.
  intros Hopen Hempty.
  assert (He : bool_decide (_collect_sensor_data w = ∅) = true)
    by (by apply bool_decide_eq_true).
  rewrite after_push_eq, push_run, !after_cycle_eq.
  unfold cycle_world, push_outcome, push_world. rewrite Hopen.
  destruct (_session (self w)); cbn zeta;
    change (_collect_sensor_data (set_self (with_session true) w))
      with (_collect_sensor_data w);
    rewrite He; repeat split; reflexivity.
Qed.

End Cycle.

(** C7 at a world whose only reading, "n/a", is not a number. *)
Lemma empty_payload_is_success_witness :
  let w := sample_world "n/a" (Response 500 "") in
  fst (@_push_sensor_data decimal_runtime w) = Ok (true, None)
  ∧ calls (@after_push decimal_runtime w) = [CallCollect]
  ∧ upload_count (self (@after_cycle decimal_runtime w)) = 1
  ∧ last_upload (self (@after_cycle decimal_runtime w)) = Some 1000
  ∧ last_error (self (@after_cycle decimal_runtime w)) = None
  ∧ calls (@after_cycle decimal_runtime w) = [CallCollect].
Proof.
  apply (@empty_payload_is_success decimal_runtime
           (sample_world "n/a" (Response 500 ""))).
  - vm_compute. reflexivity.
  - vm_compute. reflexivity.
Defined.

Section Failures.
Context {rt : PyRuntime}.

(** C6, as the code has it: when a cycle with an open gate and a payload
    ends in failure, that is with a response whose status is neither 200 nor
    201 (every non-2xx status among them), a timeout, a transport error or
    any other exception, [last_error] is "HTTP {status}: {body}" for the
    response, "Request timeout" for the timeout, and the stringified error
    otherwise, except that a transport error whose string is empty is
    recorded as "Unknown error"; the upload time and the count are left as
    they were. *)
Theorem failed_upload_records_error (w : World) :
  fst (_all_sensors_available w) = true →
  _collect_sensor_data w ≠ ∅ →
  is_failure (network w (request_of w)) = true →
  last_error (self (after_cycle w))
    = Some (recorded_failure_message (network w (request_of w)))
  ∧ last_upload (self (after_cycle w)) = last_upload (self w)
  ∧ upload_count (self (after_cycle w)) = upload_count (self w)
  ∧ (recorded_failure_message (network w (request_of w))
       ≠ stated_failure_message (network w (request_of w)) →
     network w (request_of w) = Raises (mkExc ClientError "")).
Proof.
  rewrite after_cycle_eq. cycle_paths w; try discriminate.
  all: try (intros _ Hne; apply bool_decide_eq_true in Hpayload; contradiction).
  all: intros _ _; unfold is_failure, recorded_failure_message,
         stated_failure_message; cbn [exc_class exc_str];
       try rewrite Hstatus; try discriminate; intros _.
  all: try (repeat split; try reflexivity; intros Hdiff; congruence).
  all: destruct (String.eqb_spec msg "") as [->|Hmsg]; cbn [negb];
       repeat split; try reflexivity; intros Hdiff; congruence.
Qed.

End Failures.

(** C6 at a world whose upload is answered with status 401. *)
Lemma failed_upload_records_error_witness :
  let w := sample_world "0.45" (Response 401 "Unauthorized") in
  last_error (self (@after_cycle decimal_runtime w))
    = Some "HTTP 401: Unauthorized"
  ∧ upload_count (self (@after_cycle decimal_runtime w)) = 0.
Proof.
  destruct (@failed_upload_records_error decimal_runtime
              (sample_world "0.45" (Response 401 "Unauthorized")))
    as (Herr & _ & Hcount & _).
  - vm_compute. reflexivity.
  - vm_compute. discriminate.
  - vm_compute. reflexivity.
  - split; [exact Herr | exact Hcount].
Defined.

(** C6, as stated, fails for a transport error whose string is empty: the
    stringified error is the empty string, and the cycle records
    "Unknown error". *)
Lemma transport_error_without_text_is_unknown_error :
  let w := sample_world "0.45" (Raises (mkExc ClientError "")) in
  network w (@request_of decimal_runtime w) = Raises (mkExc ClientError "")
  ∧ stated_failure_message (network w (@request_of decimal_runtime w)) = ""
  ∧ last_error (self (@after_cycle decimal_runtime w)) = Some "Unknown error".
Proof. repeat split. Qed.

(** ** The debug snapshot *)

Lemma redact_build_headers (token : option string) :
  redact_headers (build_headers token)
  = let fixed : gmap string string :=
      <["User-Agent" := SOFTWARE_TYPE +:+ "/1.0.0"]>
        (<["Content-Type" := "application/json; charset=utf-8"]> ∅) in
    if truthy token then <["Authorization" := "***"]> fixed else fixed.
Proof.
  unfold redact_headers, build_headers. cbn zeta.
  destruct (truthy token).
  - rewrite !map_imap_insert, map_imap_empty. reflexivity.
  - rewrite !map_imap_insert, map_imap_empty. reflexivity.
Qed.

Section Snapshot.
Context {rt : PyRuntime}.

(** The snapshot after a cycle: replaced when the gate is open, debug mode is
    on and the payload is not empty, and otherwise the one before. *)
Lemma cycle_snapshot (w : World) :
  last_request_data (self (after_cycle w))
  = if fst (_all_sensors_available w) && debug_mode w
       && negb (bool_decide (_collect_sensor_data w = ∅))
    then Some (snapshot_of w) else last_request_data (self w).
Proof.
  rewrite after_cycle_eq.
  cycle_paths w; try reflexivity; destruct (debug_mode w); reflexivity.
Qed.

(** C3, as the code has it: a push whose payload is not empty records, in
    debug mode, the snapshot of url, headers and payload, whatever the
    network answers and whatever snapshot was there; with debug mode off, or
    with an empty payload, the push leaves the snapshot as it was.  In the
    snapshot the Authorization header, present exactly when the token is
    truthy, holds the marker "***", the other headers are those of the
    request, and two truthy tokens give the same snapshot. *)
Theorem debug_snapshot_of_push (w : World) (net : Request → NetOutcome) :
  last_request_data (self (after_push (with_network net w)))
    = (if debug_mode w && negb (bool_decide (_collect_sensor_data w = ∅))
       then Some (snapshot_of w) else last_request_data (self w))
  ∧ rd_headers (snapshot_of w) !! "Authorization"
    = (if truthy (_access_token (self w)) then Some "***" else None)
  ∧ (∀ k, k ≠ "Authorization" →
       rd_headers (snapshot_of w) !! k
       = build_headers (_access_token (self w)) !! k)
  ∧ (∀ token token', truthy token = true → truthy token' = true →
       snapshot_of (set_self (with_access_token token) w)
       = snapshot_of (set_self (with_access_token token') w)).
Proof.
  split_and!.
  - rewrite after_push_eq. unfold push_world.
    change (_collect_sensor_data (with_network net w)) with (_collect_sensor_data w).
    change (debug_mode (with_network net w)) with (debug_mode w).
    destruct (bool_decide (_collect_sensor_data w = ∅)), (debug_mode w);
      reflexivity.
  - unfold snapshot_of. cbn [rd_headers]. rewrite redact_build_headers.
    cbn zeta. destruct (truthy (_access_token (self w))); reflexivity.
  - intros k Hk. unfold snapshot_of, redact_headers. cbn [rd_headers].
    rewrite map_lookup_imap.
    destruct (build_headers (_access_token (self w)) !! k) as [v|]; [|done].
    cbn. by rewrite bool_decide_eq_true_2.
  - intros token token' Ht Ht'. unfold snapshot_of.
    cbn [self set_self _box_id _access_token with_access_token].
    rewrite !redact_build_headers, Ht, Ht'. reflexivity.
Qed.

(** C10: a snapshot once captured is never cleared.  A cycle, a shutdown and
    an update of the entry keep a snapshot; with debug mode off the status
    and the attributes of the observer omit it while the coordinator keeps
    it over the cycle; with debug mode on again they expose that same
    snapshot, and the next cycle replaces it only when its gate is open and
    its payload is not empty. *)
Theorem debug_snapshot_is_never_cleared (w : World) (r : RequestData)
    (e_off e_on : ConfigEntry) (s : OpenSenseMapStatusSensor) :
  last_request_data (self w) = Some r →
  debug_mode (update_entry e_off w) = false →
  debug_mode (update_entry e_on w) = true →
  let w_off := update_entry e_off w in
  let w_next := after_cycle w_off in
  let w_on := update_entry e_on w_next in
  is_Some (last_request_data (self (after_cycle w)))
  ∧ last_request_data (self (snd (async_shutdown w))) = Some r
  ∧ last_request_data (self w_off) = Some r
  ∧ sd_last_request (_get_status_data w_off) = None
  ∧ attr_last_request (extra_state_attributes s w_off) = None
  ∧ last_request_data (self w_next) = Some r
  ∧ sd_last_request (_get_status_data w_on) = Some r
  ∧ attr_last_request (extra_state_attributes s w_on) = Some r
  ∧ last_request_data (self (after_cycle w_on))
    = (if fst (_all_sensors_available w_on)
          && negb (bool_decide (_collect_sensor_data w_on = ∅))
       then Some (snapshot_of w_on) else Some r).
Proof.
  intros Hr Hoff Hon w_off w_next w_on.
  assert (Hnext : last_request_data (self w_next) = Some r).
  { unfold w_next. rewrite cycle_snapshot.
    change (debug_mode w_off) with (debug_mode (update_entry e_off w)).
    rewrite Hoff, andb_false_r. exact Hr. }
  assert (Hon' : debug_mode w_on = true) by exact Hon.
  split_and!.
  - rewrite cycle_snapshot. rewrite Hr. destruct (_ && _); eauto.
  - unfold async_shutdown. run_monad.
    destruct (_session (self w)); cbn; exact Hr.
  - exact Hr.
  - unfold _get_status_data. cbn [sd_last_request].
    change (debug_mode w_off) with (debug_mode (update_entry e_off w)).
    by rewrite Hoff.
  - unfold extra_state_attributes. cbn [attr_last_request].
    change (debug_mode w_off) with (debug_mode (update_entry e_off w)).
    by rewrite Hoff.
  - exact Hnext.
  - unfold _get_status_data. cbn [sd_last_request]. rewrite Hon'.
    change (self w_on) with (self w_next). by rewrite Hnext.
  - unfold extra_state_attributes. cbn [attr_last_request]. rewrite Hon'.
    change (self w_on) with (self w_next). by rewrite Hnext.
  - rewrite cycle_snapshot, Hon', andb_true_r.
    change (self w_on) with (self w_next). by rewrite Hnext.
Qed.

End Snapshot.

(** C3, as stated, fails for a push whose payload is empty: with debug mode
    on and a reading that is not a number, the push succeeds and captures no
    snapshot. *)
Lemma empty_push_in_debug_mode_captures_nothing :
  let w := sample_world "n/a" (Response 200 "") in
  debug_mode w = true
  ∧ fst (@_push_sensor_data decimal_runtime w) = Ok (true, None)
  ∧ last_request_data (self (@after_push decimal_runtime w)) = None.
Proof. repeat split. Qed.

(** C10 at the sample world after a first upload in debug mode, with the
    options flow turning debug mode off and on again. *)
Lemma debug_snapshot_is_never_cleared_witness :
  let w := @after_cycle decimal_runtime (sample_world "0.45" (Response 200 "")) in
  let w_off := update_entry (sample_entry_with_debug false) w in
  let w_on :=
    update_entry (sample_entry_with_debug true)
                 (@after_cycle decimal_runtime w_off) in
  is_Some (last_request_data (self w))
  ∧ sd_last_request (@_get_status_data decimal_runtime w_off) = None
  ∧ sd_last_request (@_get_status_data decimal_runtime w_on)
    = last_request_data (self w).
Proof.
  pose (w := @after_cycle decimal_runtime (sample_world "0.45" (Response 200 ""))).
  pose (r := @snapshot_of decimal_runtime (sample_world "0.45" (Response 200 ""))).
  destruct (@debug_snapshot_is_never_cleared decimal_runtime w r
              (sample_entry_with_debug false) (sample_entry_with_debug true)
              (mkStatusSensor "0123456789abcdef01234567"))
    as (_ & _ & Hkept & Hoff & _ & _ & Hon & _).
  - vm_compute. reflexivity.
  - vm_compute. reflexivity.
  - vm_compute. reflexivity.
  - split; [|split].
    + exists r. vm_compute. reflexivity.
    + exact Hoff.
    + transitivity (Some r); [exact Hon|]. vm_compute. reflexivity.
Defined.

(** ** Where a cycle takes its configuration from *)

Section Configuration.
Context {rt : PyRuntime}.

(** C2, as the code has it: the sensor mapping and the debug flag of a cycle
    are read from the entry as it is when the cycle runs, while the box
    identifier, the access token and the update interval are those
    [__init__] read from the entry the coordinator was built from, which no
    cycle changes.  For a coordinator built from [e0], in any later world
    [w]: the request goes to the box of [e0] with the token of [e0], its
    payload and the gate come from the entry of [w], the snapshot is taken
    when the entry of [w] has debug mode on, and the status names the box of
    [e0] and schedules the next upload by the interval of [e0]. *)
Theorem cycle_configuration_sources (e0 : ConfigEntry) (c0 : Coordinator)
    (w : World) :
  __init__ e0 = Ok c0 →
  _box_id (self w) = _box_id c0 →
  _access_token (self w) = _access_token c0 →
  update_interval (self w) = update_interval c0 →
  let box_id := default "" (dict_get (data e0) CONF_BOX_ID) in
  let access_token := dict_get (data e0) CONF_ACCESS_TOKEN in
  let interval :=
    default (default DEFAULT_UPDATE_INTERVAL (update_interval_item (data e0)))
            (update_interval_item (options e0)) in
  let url := API_URL_format box_id in
  let payload := _collect_sensor_data w in
  calls (after_cycle w)
    = (calls w ++
       if bool_decide (unavailable_sources w = []) then
         CallCollect ::
           (if bool_decide (payload = ∅) then []
            else [CallPost (mkRequest url payload (build_headers access_token))])
       else [])%list
  ∧ last_request_data (self (after_cycle w))
    = (if fst (_all_sensors_available w) && debug_mode w
          && negb (bool_decide (payload = ∅))
       then Some (mkRequestData url (redact_headers (build_headers access_token))
                                payload)
       else last_request_data (self w))
  ∧ sd_box_id (_get_status_data (after_cycle w)) = box_id
  ∧ next_upload (self (after_cycle w))
    = (λ t, t + interval) <$> last_upload (self (after_cycle w))
  ∧ _box_id (self (after_cycle w)) = _box_id c0
  ∧ _access_token (self (after_cycle w)) = _access_token c0
  ∧ update_interval (self (after_cycle w)) = update_interval c0.
Proof.
  intros Hinit Hbox Htoken Hinterval.
  unfold __init__ in Hinit.
  destruct (dict_get (data e0) CONF_BOX_ID) as [b|] eqn:Hb; [|discriminate].
  injection Hinit as <-.
  cbn [_box_id _access_token update_interval] in Hbox, Htoken, Hinterval.
  cbn [default _box_id _access_token update_interval].
  assert (Hkept : _box_id (self (after_cycle w)) = b
                  ∧ _access_token (self (after_cycle w))
                    = dict_get (data e0) CONF_ACCESS_TOKEN
                  ∧ update_interval (self (after_cycle w))
                    = default (default DEFAULT_UPDATE_INTERVAL
                                       (update_interval_item (data e0)))
                              (update_interval_item (options e0))).
  { rewrite <- Hbox, <- Htoken, <- Hinterval, after_cycle_eq.
    cycle_paths w; repeat split; reflexivity. }
  destruct Hkept as (Kbox & Ktoken & Kinterval).
  split_and!.
  - rewrite cycle_calls. unfold request_of. by rewrite Hbox, Htoken.
  - rewrite cycle_snapshot. unfold snapshot_of. by rewrite Hbox, Htoken.
  - exact Kbox.
  - unfold next_upload. rewrite Kinterval.
    destruct (last_upload (self (after_cycle w))); reflexivity.
  - exact Kbox.
  - exact Ktoken.
  - exact Kinterval.
Qed.

End Configuration.

(** C2 at the coordinator built from the sample entry, in the world where
    the entry has been reconfigured. *)
Lemma cycle_configuration_sources_witness :
  posted_requests (calls (@after_cycle decimal_runtime reconfigured_world))
  = [ mkRequest (API_URL_format "0123456789abcdef01234567")
                (@_collect_sensor_data decimal_runtime reconfigured_world)
                (build_headers (Some "s3cr3t")) ].
Proof.
  destruct (@cycle_configuration_sources decimal_runtime sample_entry
              sample_coordinator reconfigured_world) as (Hcalls & _).
  - vm_compute. reflexivity.
  - reflexivity.
  - reflexivity.
  - reflexivity.
  - rewrite Hcalls. vm_compute. reflexivity.
Defined.

(** C2, as stated, fails for the box, the token and the interval: after the
    entry is updated to another box, token and interval (600 s), the cycle
    of the coordinator built before still posts to the old box with the old
    token and schedules the next upload 300 s after this one. *)
Lemma reconfigured_box_is_not_used :
  __init__ sample_entry = Ok sample_coordinator
  ∧ dict_get (data (entry reconfigured_world)) CONF_BOX_ID
    = Some "76543210fedcba9876543210"
  ∧ dict_get (data (entry reconfigured_world)) CONF_ACCESS_TOKEN
    = Some "n3w-t0k3n"
  ∧ update_interval_item (options (entry reconfigured_world)) = Some 600
  ∧ req_url <$> posted_requests (calls (@after_cycle decimal_runtime reconfigured_world))
    = ["https://api.opensensemap.org/boxes/0123456789abcdef01234567/data"]
  ∧ (λ req, req_headers req !! "Authorization")
      <$> posted_requests (calls (@after_cycle decimal_runtime reconfigured_world))
    = [Some "Bearer s3cr3t"]
  ∧ last_upload (self (@after_cycle decimal_runtime reconfigured_world)) = Some 1000
  ∧ next_upload (self (@after_cycle decimal_runtime reconfigured_world)) = Some 1300.
Proof. repeat split. Qed.

(** ** The status observer *)

(** C9 on the code: a failed cycle whose exception has an empty message is
    not shown as an error.  The [except] clause of the cycle stores
    [str(err)] as it is, so [last_error] becomes the empty string, which
    [native_value] takes for no error: on a first cycle the observer reports
    "pending", and after an earlier upload it reports "ok" for the failed
    cycle.  The other failure path of the same cycle guards against this: a
    transport error with an empty text is stored as "Unknown error" and
    shown as "error".  The observer is available throughout. *)
Theorem empty_exception_message_hides_failure :
  (let w := @after_cycle decimal_runtime
              (sample_world "0.45" (Raises (mkExc OtherException ""))) in
   last_error (self w) = Some ""
   ∧ last_upload (self w) = None
   ∧ upload_count (self w) = 0
   ∧ native_value w = "pending")
  ∧ (let w := @after_cycle decimal_runtime failing_world_after_upload in
     upload_count (self failing_world_after_upload) = 1
     ∧ native_value failing_world_after_upload = "ok"
     ∧ last_error (self w) = Some ""
     ∧ last_upload (self w) = Some 1000
     ∧ upload_count (self w) = 1
     ∧ native_value w = "ok")
  ∧ (let w := @after_cycle decimal_runtime
                (sample_world "0.45" (Raises (mkExc ClientError ""))) in
     last_error (self w) = Some "Unknown error"
     ∧ native_value w = "error")
  ∧ available (mkStatusSensor "0123456789abcdef01234567") = true.
Proof. repeat split. Qed.

(** ** The configuration flows *)

(** C4 on the code: the sensor identifier "xyz" does not match the pattern,
    and both flows accept it.  The sensors step stores it and moves on to
    the options step without an error, the options step creates the entry
    with it, and the options flow creates its entry with it; the first step
    of the config flow, which calls [validate_box_id], rejects the same text
    as a box identifier. *)
Theorem malformed_sensor_id_is_accepted :
  validate_sensor_id "xyz" = false
  ∧ async_step_sensors data_after_user_step (Some malformed_form)
    = (data_with_malformed_id, ShowForm "options" ∅)
  ∧ snd (async_step_options data_with_malformed_id (Some empty_dict))
    = CreateEntry "OpenSenseMap (01234567...)"
        (mkDict (strs data_with_malformed_id) (Some 300) (Some false))
  ∧ async_step_init (Some malformed_form)
    = CreateEntry "" (mkDict (strs malformed_form) (Some 300) (Some false))
  ∧ snd (async_step_user [] empty_dict
           (Some (mkDict {[ CONF_BOX_ID := "xyz" ]} None None)))
    = ShowForm "user" {[ "base" := "invalid_box_id" ]}.
Proof. repeat split; vm_compute; reflexivity. Qed.

(** * Further properties of the code *)

(** ** The collector *)

Lemma insert_loop (l : list (string * string)) (acc : gmap string string) :
  foldl (λ (m : gmap string string) kv, <[kv.1 := kv.2]> m) acc l
  = list_to_map (reverse l) ∪ acc.
Proof.
  revert acc. induction l as [|[k v] l IH]; intros acc; simpl.
  - by rewrite (left_id_L ∅ (∪)).
  - rewrite IH, reverse_cons, list_to_map_app. simpl.
    rewrite <- (assoc_L (∪)). f_equal.
    by rewrite insert_union_singleton_l, insert_empty.
Qed.

Section Collector.
Context {rt : PyRuntime}.

Lemma collect_loop (w : World) (cfgs : list SensorConfig)
    (acc : gmap string string) :
  (let config_data := data (entry w) in
   let options := options (entry w) in
   foldl (λ (data : gmap string string) cfg,
            let sensor_id :=
              get_option_or_data options config_data (sensor_id_key cfg) in
            let entity_id :=
              get_option_or_data options config_data (entity_key cfg) in
            if negb (truthy sensor_id) || negb (truthy entity_id) then data
            else
              let st := states_get w entity_id in
              if state_missing st then data
              else
                match st with
                | Some (mkState (Some raw) _ as st) =>
                    match py_float raw with
                    | Some value =>
                        let value := _convert_value (measurement_type cfg) value st in
                        <[default "" sensor_id := format_2f value]> data
                    | None => data
                    end
                | _ => data
                end)
         acc cfgs)
  = foldl (λ (m : gmap string string) kv, <[kv.1 := kv.2]> m) acc
          (contributions w cfgs).
Proof.
  cbn zeta.
  revert acc. induction cfgs as [|cfg cfgs IH]; intros acc; [reflexivity|].
  change (contributions w (cfg :: cfgs))
    with (match contribution w cfg with
          | Some kv => kv :: contributions w cfgs
          | None => contributions w cfgs
          end).
  cbn [foldl]. rewrite IH. clear IH.
  unfold contribution, active, sensor_id_of, entity_id_of, state_missing.
  destruct (truthy (get_option_or_data _ _ (sensor_id_key cfg)));
    destruct (truthy (get_option_or_data _ _ (entity_key cfg)));
    cbn [negb orb andb]; try reflexivity.
  destruct (states_get w _) as [[[raw|] attrs]|]; cbn [state]; try reflexivity.
  destruct (str_in raw ["unknown"; "unavailable"]); [reflexivity|].
  destruct (py_float raw); reflexivity.
Qed.

Lemma collect_run (w : World) :
  _collect_sensor_data w
  = list_to_map (reverse (contributions w SENSOR_CONFIGS)).
Proof.
  unfold _collect_sensor_data. rewrite (collect_loop w), insert_loop.
  by rewrite (right_id_L ∅ (∪)).
Qed.

End Collector.

Lemma list_to_map_size_le (l : list (string * string)) :
  (size (list_to_map l : gmap string string) ≤ length l)%nat.
Proof.
  induction l as [|[k v] l IH]; simpl; [by rewrite map_size_empty|].
  rewrite map_size_insert. destruct (_ !! k); unfold id; lia.
Qed.

Lemma list_to_map_is_Some (l : list (string * string)) (k v : string) :
  (k, v) ∈ l → is_Some ((list_to_map l : gmap string string) !! k).
Proof.
  intros Hin. destruct (list_to_map l !! k) eqn:E; [eauto|].
  apply not_elem_of_list_to_map in E. exfalso. apply E.
  apply list_elem_of_fmap. by exists (k, v).
Qed.

Section CollectorProperties.
Context {rt : PyRuntime}.

Lemma contributions_length (w : World) (cfgs : list SensorConfig) :
  (length (contributions w cfgs) ≤ length cfgs)%nat.
Proof.
  induction cfgs as [|cfg cfgs IH]; simpl; [lia|].
  destruct (contribution w cfg); simpl; lia.
Qed.

(** X1: the payload holds what the rows of [SENSOR_CONFIGS] contribute and
    nothing else.  Every entry is the sensor identifier and formatted
    reading of an active row whose source is present, neither unknown nor
    unavailable, and readable as a float; every such row has its identifier
    in the payload; when two rows share an identifier the later row of
    [SENSOR_CONFIGS] gives the value; and the payload has at most five
    entries. *)
Theorem collected_payload_characterised (w : World) :
  (∀ k v, _collect_sensor_data w !! k = Some v →
     ∃ row, row ∈ SENSOR_CONFIGS ∧ contribution w row = Some (k, v))
  ∧ (∀ row k v, row ∈ SENSOR_CONFIGS → contribution w row = Some (k, v) →
       is_Some (_collect_sensor_data w !! k))
  ∧ (∀ before row after k v,
       SENSOR_CONFIGS = (before ++ row :: after)%list →
       contribution w row = Some (k, v) →
       (∀ row' v', row' ∈ after → contribution w row' ≠ Some (k, v')) →
       _collect_sensor_data w !! k = Some v)
  ∧ (size (_collect_sensor_data w) ≤ 5)%nat.
Proof.
  rewrite collect_run. split_and!.
  - intros k v Hkv. apply elem_of_list_to_map_2 in Hkv.
    rewrite elem_of_reverse in Hkv. unfold contributions in Hkv.
    apply list_elem_of_omap in Hkv as (row & Hrow & Hc). eauto.
  - intros row k v Hrow Hc. apply (list_to_map_is_Some _ k v).
    rewrite elem_of_reverse. unfold contributions.
    apply list_elem_of_omap. eauto.
  - intros before row after k v -> Hc Hafter.
    unfold contributions. rewrite omap_app.
    change (omap (contribution w) (row :: after))
      with (match contribution w row with
            | Some y => y :: omap (contribution w) after
            | None => omap (contribution w) after
            end).
    rewrite Hc.
    rewrite reverse_app, reverse_cons, <- app_assoc, list_to_map_app.
    rewrite lookup_union_r.
    + simpl. apply lookup_insert_eq.
    + apply not_elem_of_list_to_map. intros Hk.
      apply list_elem_of_fmap in Hk as ([k' v'] & -> & Hin).
      rewrite elem_of_reverse in Hin.
      apply list_elem_of_omap in Hin as (row' & Hrow' & Hc').
      by apply (Hafter row' v').
  - etransitivity; [apply list_to_map_size_le|].
    rewrite length_reverse.
    etransitivity; [apply contributions_length|]. reflexivity.
Qed.

(** X2: when the availability gate is open, the collector skips an active
    row only when its state does not read as a float.  Every active row then
    has a source with a state, and its contribution is its sensor identifier
    with the converted, formatted reading whenever [float] accepts the
    state. *)
Theorem open_gate_skips_only_unreadable_rows (w : World) (row : SensorConfig) :
  unavailable_sources w = [] →
  row ∈ SENSOR_CONFIGS →
  active w row = true →
  ∃ st raw,
    states_get w (entity_id_of w row) = Some st
    ∧ state st = Some raw
    ∧ contribution w row
      = (λ value, (default "" (sensor_id_of w row),
                   format_2f (_convert_value (measurement_type row) value st)))
          <$> py_float raw
    ∧ (is_Some (py_float raw) →
       is_Some (_collect_sensor_data w !! default "" (sensor_id_of w row))).
Proof.
  intros Hopen Hrow Hact.
  assert (Hpresent : state_missing (states_get w (entity_id_of w row)) = false).
  { destruct (state_missing _) eqn:Hm; [|done]. exfalso.
    assert (Hin : default "" (entity_id_of w row) ∈ unavailable_sources w).
    { unfold unavailable_sources, unavailable_sources_of.
      apply list_elem_of_omap. exists row. by rewrite Hact, Hm. }
    rewrite Hopen in Hin. by apply not_elem_of_nil in Hin. }
  unfold state_missing in Hpresent.
  destruct (states_get w (entity_id_of w row)) as [[[raw|] attrs]|] eqn:Hst;
    cbn [state] in Hpresent; try discriminate.
  exists (mkState (Some raw) attrs), raw.
  assert (Hc : contribution w row
    = (λ value, (default "" (sensor_id_of w row),
                 format_2f (_convert_value (measurement_type row) value
                                           (mkState (Some raw) attrs))))
        <$> py_float raw).
  { unfold contribution. rewrite Hact, Hst. cbn [state]. rewrite Hpresent.
    destruct (py_float raw); reflexivity. }
  split_and!; try done.
  intros [value Hvalue]. rewrite collect_run.
  apply (list_to_map_is_Some _ _
           (format_2f (_convert_value (measurement_type row) value
                                      (mkState (Some raw) attrs)))).
  rewrite elem_of_reverse. unfold contributions. apply list_elem_of_omap.
  exists row. split; [done|]. rewrite Hc, Hvalue. reflexivity.
Qed.

End CollectorProperties.

(** X1's last-row rule at the humidity row, the only row the sample world
    maps. *)
Lemma collected_payload_sample :
  @_collect_sensor_data decimal_runtime (sample_world "0.45" (Response 200 ""))
  = {[ "89abcdef0123456789abcdef" := "45.00" ]}.
Proof. vm_compute. reflexivity. Qed.

(** X2 at the sample world. *)
Lemma open_gate_skips_only_unreadable_rows_witness :
  let w := sample_world "0.45" (Response 200 "") in
  ∃ st raw,
    states_get w (entity_id_of w humidity_config) = Some st
    ∧ state st = Some raw
    ∧ @contribution decimal_runtime w humidity_config
      = (λ value, (default "" (sensor_id_of w humidity_config),
                   fixed_2f (_convert_value (measurement_type humidity_config)
                                            value st)))
          <$> decimal_float raw
    ∧ (is_Some (decimal_float raw) →
       is_Some (@_collect_sensor_data decimal_runtime w
                  !! default "" (sensor_id_of w humidity_config))).
Proof.
  apply (@open_gate_skips_only_unreadable_rows decimal_runtime
           (sample_world "0.45" (Response 200 "")) humidity_config).
  - vm_compute. reflexivity.
  - unfold SENSOR_CONFIGS, humidity_config. set_solver.
  - vm_compute. reflexivity.
Defined.

(** ** Cycles over time *)

Section History.
Context {rt : PyRuntime}.

(** A cycle either counts an upload or records an error. *)
Lemma cycle_counter (w : World) :
  last_error (self (after_cycle w)) = None
  ∧ upload_count (self (after_cycle w)) = upload_count (self w) + 1
  ∧ last_upload (self (after_cycle w)) = Some (clock w)
  ∨ is_Some (last_error (self (after_cycle w)))
    ∧ upload_count (self (after_cycle w)) = upload_count (self w)
    ∧ last_upload (self (after_cycle w)) = last_upload (self w).
Proof. rewrite after_cycle_eq. cycle_paths w; eauto. Qed.

Lemma cycle_captured (w : World) :
  _box_id (self (after_cycle w)) = _box_id (self w)
  ∧ _access_token (self (after_cycle w)) = _access_token (self w)
  ∧ update_interval (self (after_cycle w)) = update_interval (self w).
Proof. rewrite after_cycle_eq. cycle_paths w; repeat split; reflexivity. Qed.

Lemma cycle_session (w : World) :
  _session (self (after_cycle w))
  = _session (self w) || fst (_all_sensors_available w).
Proof.
  rewrite after_cycle_eq.
  cycle_paths w; rewrite ?Hsession, ?orb_false_r; reflexivity.
Qed.

Lemma run_cycles_snoc (envs : list Env) (env : Env) (c : Coordinator) :
  run_cycles (envs ++ [env]) c
  = self (after_cycle (world_of env (run_cycles envs c))).
Proof. unfold run_cycles. by rewrite foldl_app. Qed.

(** X3: over any sequence of cycles of a coordinator built by [__init__],
    whatever the entry, the sources, the network and the clock do between
    them, the upload count is between 0 and the number of cycles, an upload
    time is recorded exactly when the count is positive, the next upload
    time is that time plus the interval, and the box, the token and the
    interval stay those of the construction. *)
Theorem upload_counter_invariant (e0 : ConfigEntry) (c0 : Coordinator)
    (envs : list Env) :
  __init__ e0 = Ok c0 →
  let c := run_cycles envs c0 in
  (0 ≤ upload_count c ≤ Z.of_nat (length envs))%Z
  ∧ (last_upload c = None ↔ upload_count c = 0)
  ∧ (next_upload c = None ↔ upload_count c = 0)
  ∧ (∀ t, last_upload c = Some t → next_upload c = Some (t + update_interval c0))
  ∧ _box_id c = _box_id c0
  ∧ _access_token c = _access_token c0
  ∧ update_interval c = update_interval c0.
Proof.
  intros Hinit. cbn zeta.
  assert (Hstart : upload_count c0 = 0 ∧ last_upload c0 = None).
  { unfold __init__ in Hinit.
    destruct (dict_get (data e0) CONF_BOX_ID); [|discriminate].
    injection Hinit as <-. split; reflexivity. }
  destruct Hstart as [Hcount0 Hlast0].
  assert (Hinv : (0 ≤ upload_count (run_cycles envs c0) ≤ Z.of_nat (length envs))%Z
                 ∧ (last_upload (run_cycles envs c0) = None
                    ↔ upload_count (run_cycles envs c0) = 0)
                 ∧ _box_id (run_cycles envs c0) = _box_id c0
                 ∧ _access_token (run_cycles envs c0) = _access_token c0
                 ∧ update_interval (run_cycles envs c0) = update_interval c0).
  { induction envs as [|env envs IH] using rev_ind.
    - cbn. rewrite Hcount0, Hlast0. split_and!; try done; lia.
    - rewrite run_cycles_snoc, length_app. cbn [length].
      destruct IH as (Hrange & Hiff & Hbox & Htoken & Hinterval).
      set (w := world_of env (run_cycles envs c0)).
      destruct (cycle_captured w) as (Kbox & Ktoken & Kinterval).
      rewrite Kbox, Ktoken, Kinterval.
      change (self w) with (run_cycles envs c0).
      destruct (cycle_counter w) as [(_ & Hc & Hl) | (_ & Hc & Hl)];
        rewrite Hc, Hl; change (self w) with (run_cycles envs c0).
      + split_and!; try done; try lia. split; [done|lia].
      + split_and!; try done; lia. }
  destruct Hinv as (Hrange & Hiff & Hbox & Htoken & Hinterval).
  split_and!; try done; try lia.
  - unfold next_upload.
    destruct (last_upload (run_cycles envs c0)) eqn:E; [|done].
    split; [done|]. intros H0. apply Hiff in H0. discriminate.
  - intros t Ht. unfold next_upload. by rewrite Ht, Hinterval.
Qed.

(** X4: while debug mode is off in the entry at every cycle since the
    construction, the coordinator holds no request snapshot. *)
Theorem snapshot_stays_empty_without_debug (e0 : ConfigEntry) (c0 : Coordinator)
    (envs : list Env) :
  __init__ e0 = Ok c0 →
  (∀ env, env ∈ envs → debug_mode (world_of env c0) = false) →
  last_request_data (run_cycles envs c0) = None.
Proof.
  intros Hinit Hoff.
  assert (Hstart : last_request_data c0 = None).
  { unfold __init__ in Hinit.
    destruct (dict_get (data e0) CONF_BOX_ID); [|discriminate].
    by injection Hinit as <-. }
  induction envs as [|env envs IH] using rev_ind; [exact Hstart|].
  rewrite run_cycles_snoc, cycle_snapshot.
  change (debug_mode (world_of env (run_cycles envs c0)))
    with (debug_mode (world_of env c0)).
  rewrite (Hoff env) by (apply elem_of_app; right; by apply list_elem_of_singleton).
  rewrite andb_false_r. cbn.
  apply IH. intros env' Hin. apply Hoff, elem_of_app. by left.
Qed.

Lemma shutdown_run (w : World) :
  async_shutdown w = (Ok tt, set_self (with_session false) w).
Proof.
  unfold async_shutdown. run_monad.
  destruct w as [e s n k [b t ss lu le uc lr ui] l].
  destruct ss; reflexivity.
Qed.

(** X5: the session.  [async_shutdown] returns without raising, leaves the
    session closed and everything else as it was, and a second shutdown
    changes nothing; a cycle leaves the session open when its gate is open
    and as it found it when the gate is closed. *)
Theorem session_is_closed_and_reopened (w : World) :
  let w' := snd (async_shutdown w) in
  fst (async_shutdown w) = Ok tt
  ∧ self w' = with_session false (self w)
  ∧ entry w' = entry w ∧ states w' = states w ∧ calls w' = calls w
  ∧ snd (async_shutdown w') = w'
  ∧ _session (self (after_cycle w'))
    = fst (_all_sensors_available w)
  ∧ _session (self (after_cycle w))
    = _session (self w) || fst (_all_sensors_available w).
Proof.
  cbn zeta. rewrite !shutdown_run. cbn [fst snd].
  split_and!; try reflexivity.
  - rewrite cycle_session. reflexivity.
  - apply cycle_session.
Qed.

End History.

(** X3 after three cycles of the sample coordinator: an upload, a refused
    upload and a cycle with the source unavailable. *)
Lemma upload_counter_invariant_witness :
  let envs :=
    [ mkEnv sample_entry (humidity_reading "0.45") (λ _, Response 201 "") 1000;
      mkEnv sample_entry (humidity_reading "0.46") (λ _, Response 401 "no") 1300;
      mkEnv sample_entry (humidity_reading "unavailable") (λ _, Response 200 "") 1600 ] in
  upload_count (@run_cycles decimal_runtime envs sample_coordinator) = 1
  ∧ next_upload (@run_cycles decimal_runtime envs sample_coordinator) = Some 1300.
Proof.
  pose (envs :=
    [ mkEnv sample_entry (humidity_reading "0.45") (λ _, Response 201 "") 1000;
      mkEnv sample_entry (humidity_reading "0.46") (λ _, Response 401 "no") 1300;
      mkEnv sample_entry (humidity_reading "unavailable") (λ _, Response 200 "") 1600 ]).
  destruct (@upload_counter_invariant decimal_runtime sample_entry
              sample_coordinator envs) as (_ & _ & _ & Hnext & _).
  - vm_compute. reflexivity.
  - split; [vm_compute; reflexivity|].
    apply (Hnext 1000). vm_compute. reflexivity.
Defined.

(** X4 for two cycles with debug mode turned off by the options. *)
Lemma snapshot_stays_empty_without_debug_witness :
  let envs :=
    [ mkEnv (sample_entry_with_debug false) (humidity_reading "0.45")
            (λ _, Response 201 "") 1000;
      mkEnv (sample_entry_with_debug false) (humidity_reading "0.46")
            (λ _, Response 500 "") 1300 ] in
  last_request_data (@run_cycles decimal_runtime envs sample_coordinator) = None.
Proof.
  apply (@snapshot_stays_empty_without_debug decimal_runtime sample_entry).
  - vm_compute. reflexivity.
  - intros env Henv.
    repeat (apply elem_of_cons in Henv as [->|Henv]; [reflexivity|]).
    by apply not_elem_of_nil in Henv.
Defined.

(** ** Requests and what the observer shows *)

(** X6: the headers of a request.  Content-Type and User-Agent are always
    the two fixed values; Authorization is present exactly when the access
    token is a non-empty string and is then "Bearer " followed by the token
    (a missing token and the empty string both give no header); and there is
    no other header. *)
Theorem request_headers (access_token : option string) (k : string) :
  build_headers access_token !! "Content-Type"
    = Some "application/json; charset=utf-8"
  ∧ build_headers access_token !! "User-Agent"
    = Some "HomeAssistant-OpenSenseMap/1.0.0"
  ∧ build_headers access_token !! "Authorization"
    = match access_token with
      | Some token => if String.eqb token "" then None
                      else Some ("Bearer " +:+ token)
      | None => None
      end
  ∧ (k ∉ ["Content-Type"; "User-Agent"; "Authorization"] →
     build_headers access_token !! k = None).
Proof.
  unfold build_headers, truthy.
  destruct access_token as [token|]; [destruct (String.eqb token "")|];
    cbn [negb default]; split_and!; try reflexivity.
  all: intros Hk; repeat (rewrite not_elem_of_cons in Hk; destruct Hk as [? Hk]).
  all: by rewrite ?lookup_insert_ne, lookup_empty by done.
Qed.

Section Requests.
Context {rt : PyRuntime}.

(** X7: a cycle sends at most one request and never retries.  The calls of
    the cycle come after those already made; a request is sent only when the
    gate is open and the payload is not empty, and it goes to the box of the
    coordinator with the collected payload as its JSON body and the headers
    of the coordinator's token, whatever the network answers. *)
Theorem cycle_sends_at_most_one_request (w : World) :
  ∃ new,
    calls (after_cycle w) = (calls w ++ new)%list
    ∧ (length (posted_requests new) ≤ 1)%nat
    ∧ (∀ req, req ∈ posted_requests new →
         fst (_all_sensors_available w) = true
         ∧ _collect_sensor_data w ≠ ∅
         ∧ req = mkRequest (API_URL_format (_box_id (self w)))
                           (_collect_sensor_data w)
                           (build_headers (_access_token (self w))))
    ∧ (fst (_all_sensors_available w) = true → _collect_sensor_data w ≠ ∅ →
       posted_requests new = [request_of w]).
Proof.
  rewrite cycle_calls, gate_run. cbn [fst].
  destruct (bool_decide (unavailable_sources w = [])).
  - destruct (bool_decide (_collect_sensor_data w = ∅)) eqn:Hp.
    + eexists. split; [reflexivity|]. cbn. split_and!; [lia| |].
      * intros req Hreq. by apply not_elem_of_nil in Hreq.
      * intros _ Hne. by apply bool_decide_eq_true in Hp.
    + eexists. split; [reflexivity|]. cbn. split_and!; [lia| |done].
      intros req Hreq. apply list_elem_of_singleton in Hreq as ->.
      split_and!; [done| |reflexivity]. by apply bool_decide_eq_false in Hp.
  - exists []. split; [reflexivity|]. cbn. split_and!; [lia| |done].
    intros req Hreq. by apply not_elem_of_nil in Hreq.
Qed.

(** X8: a cycle that uploads clears an earlier error.  When the gate is open
    and the payload is empty or the response has status 200 or 201, the
    observer reports "ok" after the cycle whatever [last_error] held before,
    the status and the attributes carry no error, and the next upload is
    announced one interval after the time of the cycle. *)
Theorem successful_cycle_reports_ok (w : World) (s : OpenSenseMapStatusSensor) :
  fst (_all_sensors_available w) = true →
  (_collect_sensor_data w = ∅
   ∨ ∃ status text, network w (request_of w) = Response status text
                    ∧ (status = 200 ∨ status = 201)) →
  native_value (after_cycle w) = "ok"
  ∧ sd_last_error (_get_status_data (after_cycle w)) = None
  ∧ attr_last_error (extra_state_attributes s (after_cycle w)) = None
  ∧ sd_last_upload (_get_status_data (after_cycle w)) = Some (isoformat (clock w))
  ∧ sd_next_upload (_get_status_data (after_cycle w))
    = Some (isoformat (clock w + update_interval (self w)))
  ∧ upload_count (self (after_cycle w)) = upload_count (self w) + 1.
Proof.
  intros Hopen Hok.
  assert (Hself : self (after_cycle w)
                  = record_success (clock w) (self (push_world w))
                  ∨ self (after_cycle w)
                    = record_success (clock w)
                        (self (push_world (set_self (with_session true) w)))).
  { rewrite after_cycle_eq. unfold cycle_world. rewrite Hopen.
    assert (Hout : ∃ r, push_outcome w = Ok (true, r)).
    { unfold push_outcome. destruct Hok as [-> | (status & text & -> & Hs)].
      - rewrite bool_decide_eq_true_2 by done. eauto.
      - destruct (bool_decide (_collect_sensor_data w = ∅)); [eauto|].
        rewrite bool_decide_eq_true_2; [eauto|].
        destruct Hs as [-> | ->]; set_solver. }
    destruct Hout as [r ->]. destruct (_session (self w)); cbn; eauto. }
  assert (Hfields : last_error (self (after_cycle w)) = None
                    ∧ last_upload (self (after_cycle w)) = Some (clock w)
                    ∧ upload_count (self (after_cycle w)) = upload_count (self w) + 1
                    ∧ update_interval (self (after_cycle w))
                      = update_interval (self w)).
  { destruct Hself as [-> | ->]; unfold push_world;
      change (_collect_sensor_data (set_self (with_session true) w))
        with (_collect_sensor_data w);
      change (debug_mode (set_self (with_session true) w)) with (debug_mode w);
      destruct (bool_decide (_collect_sensor_data w = ∅)), (debug_mode w);
      repeat split; reflexivity. }
  destruct Hfields as (Herr & Hlast & Hcount & Hint).
  unfold native_value, _get_status_data, extra_state_attributes, next_upload,
    isoformat_opt.
  cbn [sd_last_error attr_last_error sd_last_upload sd_next_upload].
  rewrite Herr, Hlast, Hint. split_and!; try reflexivity. exact Hcount.
Qed.

(** X9: the observer against the status.  The state of the observer is
    always one of its three options and is "error" exactly when its
    attributes carry [last_error]; and for an observer created for the box
    of the coordinator, the attributes agree with the status data on the
    box, the count, both times and the request snapshot. *)
Theorem observer_agrees_with_status (w : World) (s : OpenSenseMapStatusSensor) :
  native_value w ∈ STATUS_OPTIONS
  ∧ (native_value w = "error"
     ↔ is_Some (attr_last_error (extra_state_attributes s w)))
  ∧ (∀ msg, attr_last_error (extra_state_attributes s w) = Some msg →
       sd_last_error (_get_status_data w) = Some msg ∧ msg ≠ "")
  ∧ attr_upload_count (extra_state_attributes s w)
    = sd_upload_count (_get_status_data w)
  ∧ attr_last_upload (extra_state_attributes s w)
    = sd_last_upload (_get_status_data w)
  ∧ attr_next_upload (extra_state_attributes s w)
    = sd_next_upload (_get_status_data w)
  ∧ attr_last_request (extra_state_attributes s w)
    = sd_last_request (_get_status_data w)
  ∧ (sensor_box_id s = _box_id (self w) →
     attr_box_id (extra_state_attributes s w) = sd_box_id (_get_status_data w)).
Proof.
  unfold native_value, extra_state_attributes, _get_status_data, STATUS_OPTIONS,
    isoformat_opt, truthy.
  cbn [attr_last_error attr_upload_count attr_last_upload attr_next_upload
       attr_last_request attr_box_id sd_last_error sd_upload_count
       sd_last_upload sd_next_upload sd_last_request sd_box_id].
  assert (Hopt : ∀ x : string, x ∈ ["pending"; "ok"; "error"] ↔
                   x = "pending" ∨ x = "ok" ∨ x = "error").
  { intros x. rewrite !elem_of_cons, elem_of_nil. tauto. }
  unfold STATUS_PENDING, STATUS_OK, STATUS_ERROR.
  destruct (last_error (self w)) as [msg|];
    [destruct (String.eqb_spec msg "") as [->|Hmsg]|]; cbn [negb];
    destruct (bool_decide (is_Some (last_upload (self w))));
    split_and!; intros; simplify_eq; try done;
    try (apply Hopt; tauto);
    try (split; [discriminate | intros [? ?]; discriminate]);
    try (split; eauto).
Qed.

End Requests.

(** X8 at the sample world after a refused upload. *)
Lemma successful_cycle_reports_ok_witness :
  let failed := @after_cycle decimal_runtime
                  (sample_world "0.45" (Response 503 "busy")) in
  let w := with_network (λ _, Response 200 "") failed in
  native_value failed = "error"
  ∧ native_value (@after_cycle decimal_runtime w) = "ok".
Proof.
  pose (failed := @after_cycle decimal_runtime
                    (sample_world "0.45" (Response 503 "busy"))).
  pose (w := with_network (λ _, Response 200 "") failed).
  destruct (@successful_cycle_reports_ok decimal_runtime w
              (mkStatusSensor "0123456789abcdef01234567")) as (Hok & _).
  - vm_compute. reflexivity.
  - right. exists 200, "". split; [reflexivity|]. by left.
  - split; [vm_compute; reflexivity | exact Hok].
Defined.
